(** * E-commerce API: carts, orders and inventory

    A shallow embedding of the order-placement and cart workflow of the
    ecommerce-api sources ([models/Product.js], [models/Cart.js],
    [models/Order.js], [controllers/cartController.js],
    [controllers/orderController.js], [controllers/productController.js]).

    Representation choices:
    - a JavaScript [Number] that holds money (price, subtotal, tax, shipping,
      total) is an IEEE-754 binary64 value: Rocq's primitive [float], whose
      [+], [*] and [<] round exactly as the JavaScript operators do;
    - a [Number] that the schemas validate with [Number.isInteger] (stock,
      quantity, item counts) is a [Z]; [num] is its value as a [Number];
    - a MongoDB collection is a finite map from document id to document;
      the orders, which are never deleted, are a list indexed by their id;
    - a request handler is a function from the database to the new database
      and either the error passed to [next] or the response data;
    - [Date.now()] and [Math.random()] are arguments of the handlers;
    - the requester is [req.user] as [verifyToken] builds it: its [id] is
      the ObjectId [user._id], not a string.

    Paths that none of these operations reads (description, category,
    images, brand, sku, notes, timestamps) are left out, and so is the
    trimming of strings. *)

From Stdlib Require Import ZArith QArith List String HexadecimalString.
From Stdlib Require Import PrimFloat FloatOps SpecFloat Uint63.
From stdpp Require Import base option list gmap strings.

#[local] Set Warnings "-inexact-float".
#[local] Open Scope string_scope.
#[local] Open Scope Z_scope.

(** ** JavaScript numbers *)

Definition ObjectId := nat.

(** The [Number] value of an integer: the binary64 value nearest to it,
    which is the integer itself below 2^53 in magnitude. *)
Definition num (z : Z) : float :=
  SF2Prim (binary_normalize prec emax z 0 false).

(** The exact rational value of a finite [Number]; [None] for NaN and the
    infinities. *)
Definition float_value (f : float) : option Q :=
  match Prim2SF f with
  | S754_zero _ => Some (0 # 1)%Q
  | S754_finite s m e =>
      let mz := if s then Zneg m else Zpos m in
      Some (if 0 <=? e then inject_Z (mz * 2 ^ e)
            else Qmake mz (Pos.pow 2 (Z.to_pos (- e))))
  | S754_infinity _ => None
  | S754_nan => None
  end.

(** [Array.prototype.findIndex]: the first index whose element satisfies
    the predicate ([None] where JavaScript returns -1). *)
Fixpoint findIndex {A : Type} (f : A → bool) (l : list A) : option nat :=
  match l with
  | [] => None
  | x :: l' => if f x then Some 0%nat else S <$> findIndex f l'
  end.

(** ** Errors handed to [next] (middlewares/errorHandler.js) *)

(** The text of an error message, with the values its template interpolates. *)
Inductive Message : Type :=
  | PaymentMethodRequired
  | ShippingAddressRequired
  | ShippingAddressFieldRequired (field : string)
  | CartIsEmpty
  | NoLongerAvailable (name : string)
  | InsufficientStock (name : string) (available : Z)
  | StatusRequired
  | NotFound (resource : string)
  | AccessDeniedCancel
  | CannotBeCancelled
  | SchemaValidation (path : string)
  | DuplicateValue (field : string).

Record AppError : Type := mkAppError {
  message : Message;
  statusCode : Z;
  type : string
}.

Definition createValidationError (m : Message) : AppError :=
  mkAppError m 400 "ValidationError".

Definition createNotFoundError (resource : string) : AppError :=
  mkAppError (NotFound resource) 404 "NotFoundError".

(** A Mongoose validation failure, as the error handler reports it. *)
Definition schemaError (path : string) : AppError :=
  mkAppError (SchemaValidation path) 400 "ValidationError".

(** A write refused by a unique index, as the error handler reports it. *)
Definition duplicateError (field : string) : AppError :=
  mkAppError (DuplicateValue field) 400 "DuplicateError".

Inductive Result (A : Type) : Type :=
  | Ok (a : A)
  | Err (e : AppError).
Arguments Ok {A} a.
Arguments Err {A} e.

Definition isOk {A : Type} (r : Result A) : bool :=
  match r with Ok _ => true | Err _ => false end.

(** ** models/Product.js *)

Module Product.

(** A product document; its [_id] is its key in the collection. *)
Record t : Type := mk {
  name : string;
  price : float;
  stock : Z;
  isActive : bool
}.

Definition setStock (p : t) (s : Z) : t :=
  mk (name p) (price p) s (isActive p).

Definition inStock (p : t) : bool := 0 <? stock p.



Definition increaseStock (p : t) (quantity : Z) : t :=
  setStock p (stock p + quantity).

(** [Product.findByIdAndUpdate(id, { $inc: { stock: d } })]: adds [d] to
    the stock of the document with that id, without running the schema
    validators; no document, no change. *)
Definition incStock (id : ObjectId) (d : Z) (products : gmap ObjectId t)
  : gmap ObjectId t :=
  alter (λ p, setStock p (stock p + d)) id products.

End Product.

(** ** models/Cart.js *)

Module Cart.

Record Item : Type := mkItem {
  product : ObjectId;
  quantity : Z;
  price : float
}.

(** A cart document; its unique [user] path is its key in the
    collection. *)
Record t : Type := mk {
  items : list Item;
  totalItems : Z;
  totalAmount : float
}.

Definition isEmpty (c : t) : bool :=
  match items c with [] => true | _ => false end.

Definition sumQuantity (l : list Item) : Z :=
  fold_left (λ total item, total + quantity item) l 0.

Definition sumAmount (l : list Item) : float :=
  fold_left (λ total item, (total + price item * num (quantity item))%float)
            l 0%float.

Definition calculateTotals (c : t) : t :=
  mk (items c) (sumQuantity (items c)) (sumAmount (items c)).

(** [cart.save()] runs the pre-save hook, which recomputes the totals. *)
Definition preSave (c : t) : t := calculateTotals c.

Definition isFor (id : ObjectId) (item : Item) : bool :=
  bool_decide (product item = id).

Definition addQuantity (q : Z) (item : Item) : Item :=
  mkItem (product item) (quantity item + q) (price item).

(** [addItem(productData, quantity)], with [productData._id] passed as
    [productId]. *)
Definition addItem (c : t) (productId : ObjectId) (productData : Product.t)
    (q : Z) : t :=
  match findIndex (isFor productId) (items c) with
  | Some existingItemIndex =>
      mk (alter (addQuantity q) existingItemIndex (items c))
         (totalItems c) (totalAmount c)
  | None =>
      mk (items c ++ [mkItem productId q (Product.price productData)])
         (totalItems c) (totalAmount c)
  end.

Definition setQuantity (q : Z) (item : Item) : Item :=
  mkItem (product item) q (price item).

Definition updateItemQuantity (c : t) (productId : ObjectId) (q : Z)
  : t * bool :=
  match findIndex (isFor productId) (items c) with
  | Some itemIndex =>
      if q <=? 0
      then (mk (delete itemIndex (items c))
               (totalItems c) (totalAmount c), true)
      else (mk (alter (setQuantity q) itemIndex (items c))
               (totalItems c) (totalAmount c), true)
  | None => (c, false)
  end.

Definition removeItem (c : t) (productId : ObjectId) : t * bool :=
  let kept := List.filter (λ item, negb (isFor productId item)) (items c) in
  (mk kept (totalItems c) (totalAmount c),
   (length kept <? length (items c))%nat).

Definition clearCart (c : t) : t := mk [] 0 0%float.

Definition getItem (c : t) (productId : ObjectId) : option Item :=
  List.find (isFor productId) (items c).

Definition itemValid (item : Item) : bool :=
  (1 <=? quantity item) && (0 <=? price item)%float.

(** The schema validators of a cart, which run before the pre-save hook:
    the bounds on every item, at most 50 items, and totals that are not
    negative; the name of the first path that fails. *)
Definition validate (c : t) : option string :=
  if negb (forallb itemValid (items c)) then Some "items"
  else if negb (length (items c) <=? 50)%nat then Some "items"
  else if negb (0 <=? totalItems c) then Some "totalItems"
  else if negb (0 <=? totalAmount c)%float then Some "totalAmount"
  else None.

End Cart.

(** ** models/Order.js *)

Module Order.

Inductive Status : Type :=
  | pending | confirmed | processing | shipped | delivered | cancelled.

Inductive PaymentStatus : Type :=
  | paymentPending | paymentCompleted | paymentFailed | paymentRefunded.

#[global] Instance Status_eq_dec : EqDecision Status.
Proof. solve_decision. Defined.

(** The [enum] of the [orderStatus] path: the strings it accepts. *)
Definition statusOfString (s : string) : option Status :=
  if String.eqb s "pending" then Some pending
  else if String.eqb s "confirmed" then Some confirmed
  else if String.eqb s "processing" then Some processing
  else if String.eqb s "shipped" then Some shipped
  else if String.eqb s "delivered" then Some delivered
  else if String.eqb s "cancelled" then Some cancelled
  else None.

Definition paymentMethods : list string :=
  ["Cash"; "Online"; "Card"; "PayPal"; "Bank Transfer"].

Record Item : Type := mkItem {
  product : ObjectId;
  name : string;
  price : float;
  quantity : Z;
  subtotal : float
}.

Record ShippingAddress : Type := mkAddress {
  fullName : string;
  addressLine1 : string;
  addressLine2 : string;
  city : string;
  state : string;
  zipCode : string;
  country : string;
  phone : string
}.

(** An order document; [orderSubtotal] is its [subtotal] path. *)
Record t : Type := mk {
  orderNumber : option (Z * Z);
  user : ObjectId;
  items : list Item;
  totalItems : Z;
  orderSubtotal : float;
  tax : float;
  shipping : float;
  totalAmount : float;
  paymentMethod : string;
  paymentStatus : PaymentStatus;
  orderStatus : Status;
  shippingAddress : ShippingAddress;
  estimatedDelivery : option Z;
  deliveredAt : option Z;
  cancelledAt : option Z;
  cancellationReason : option string
}.

Definition isCompleted (o : t) : bool :=
  match orderStatus o, paymentStatus o with
  | delivered, paymentCompleted => true
  | _, _ => false
  end.

Definition canBeCancelled (o : t) : bool :=
  match orderStatus o with
  | pending | confirmed => true
  | _ => false
  end.

Definition sumSubtotal (l : list Item) : float :=
  fold_left (λ total item, (total + subtotal item)%float) l 0%float.

Definition sumQuantity (l : list Item) : Z :=
  fold_left (λ total item, total + quantity item) l 0.

Definition fixSubtotal (item : Item) : Item :=
  mkItem (product item) (name item) (price item) (quantity item)
         (price item * num (quantity item))%float.

Definition calculateTotals (o : t) : t :=
  let subtotal' := sumSubtotal (items o) in
  let totalItems' := sumQuantity (items o) in
  let totalAmount' := (subtotal' + tax o + shipping o)%float in
  mk (orderNumber o) (user o) (fixSubtotal <$> items o) totalItems'
     subtotal' (tax o) (shipping o) totalAmount'
     (paymentMethod o) (paymentStatus o) (orderStatus o)
     (shippingAddress o) (estimatedDelivery o) (deliveredAt o)
     (cancelledAt o) (cancellationReason o).

Definition sevenDays : Z := 7 * 24 * 60 * 60 * 1000.

(** The pre-save hook. [now] is [Date.now()] and [rnd] is
    [Math.floor(Math.random() * 1000)]; the order number is kept as its two
    numeric fields, the last eight digits of the time and the suffix. *)
Definition preSave (isNew : bool) (now rnd : Z) (o : t) : t :=
  let number :=
    match orderNumber o with
    | None => if isNew then Some (now mod 100000000, rnd) else None
    | Some n => Some n
    end in
  let o' := calculateTotals o in
  let estimate :=
    match estimatedDelivery o with
    | None => if isNew then Some (now + sevenDays) else None
    | Some d => Some d
    end in
  mk number (user o') (items o') (totalItems o') (orderSubtotal o')
     (tax o') (shipping o') (totalAmount o')
     (paymentMethod o') (paymentStatus o') (orderStatus o')
     (shippingAddress o') estimate (deliveredAt o')
     (cancelledAt o') (cancellationReason o').

Definition setStatus (o : t) (s : Status) (pay : PaymentStatus)
    (deliveredAt' cancelledAt' : option Z) (reason : option string) : t :=
  mk (orderNumber o) (user o) (items o) (totalItems o) (orderSubtotal o)
     (tax o) (shipping o) (totalAmount o) (paymentMethod o) pay s
     (shippingAddress o) (estimatedDelivery o) deliveredAt' cancelledAt'
     reason.

(** [updateStatus]: assigns the status whatever the current one is, stamps
    a delivery or a cancellation, and saves. The save rejects a string
    outside the [orderStatus] enum. *)
Definition updateStatus (now rnd : Z) (o : t) (status : string)
    (reason : option string) : Result t :=
  match statusOfString status with
  | None => Err (schemaError "orderStatus")
  | Some s =>
      let o' :=
        match s with
        | delivered =>
            setStatus o s paymentCompleted (Some now) (cancelledAt o)
                      (cancellationReason o)
        | cancelled =>
            setStatus o s (paymentStatus o) (deliveredAt o) (Some now) reason
        | _ =>
            setStatus o s (paymentStatus o) (deliveredAt o) (cancelledAt o)
                      (cancellationReason o)
        end in
      Ok (preSave false now rnd o')
  end.

Definition itemValid (item : Item) : bool :=
  (0 <=? price item)%float && (1 <=? quantity item)
  && (0 <=? subtotal item)%float.

(** The schema validators of an order, in the order of the schema; the
    name of the first path that fails. [orderNumber] is required, and the
    validators run before the pre-save hook that would assign it. *)
Definition validate (o : t) : option string :=
  if negb (bool_decide (is_Some (orderNumber o))) then Some "orderNumber"
  else if negb (forallb itemValid (items o)) then Some "items"
  else if (length (items o) =? 0)%nat then Some "items"
  else if negb (1 <=? totalItems o) then Some "totalItems"
  else if negb (0 <=? orderSubtotal o)%float then Some "subtotal"
  else if negb (0 <=? tax o)%float then Some "tax"
  else if negb (0 <=? shipping o)%float then Some "shipping"
  else if negb (0 <=? totalAmount o)%float then Some "totalAmount"
  else if negb (existsb (String.eqb (paymentMethod o)) paymentMethods)
       then Some "paymentMethod"
  else None.

End Order.

(** ** The database and the requests *)

Record DB : Type := mkDB {
  products : gmap ObjectId Product.t;
  carts : gmap ObjectId Cart.t;
  orders : list Order.t
}.

Inductive Role : Type := user | admin.

Record Principal : Type := mkPrincipal {
  id : ObjectId;
  role : Role
}.

Definition isAdminRole (r : Role) : bool :=
  match r with admin => true | user => false end.

(** The operands of the handlers' ownership tests: [verifyToken] sets
    [req.user.id] to [user._id], an ObjectId object, and the handlers
    compare it with [order.user.toString()], a string. *)
Inductive Value : Type :=
  | Str (s : string)
  | Oid (id : ObjectId).

(** [ObjectId.prototype.toString]: the id in hexadecimal digits. *)
Definition toString (id : ObjectId) : string :=
  NilZero.string_of_uint (Nat.to_hex_uint id).

(** [a !== b]. Operands of different types are never strictly equal; two
    strings are when they have the same characters; two ObjectId objects
    are compared by identity, and every query builds its own. *)
Definition strictNotEqual (a b : Value) : bool :=
  match a, b with
  | Str s, Str t => negb (String.eqb s t)
  | _, _ => true
  end.

(** A cart item with its [product] path populated: the product document
    whose [_id] is the item's reference, or [None] where there is none. *)
Definition Populated : Type := Cart.Item * option Product.t.

Definition populate (db : DB) (item : Cart.Item) : Populated :=
  (item, products db !! Cart.product item).

(** [Cart.findByUser]: the user's cart with its items populated. *)
Definition findByUser (db : DB) (userId : ObjectId)
  : option (Cart.t * list Populated) :=
  c ← carts db !! userId; Some (c, populate db <$> Cart.items c).

(** [cart.save()] for the cart of [userId]. *)
Definition saveCart (db : DB) (userId : ObjectId) (c : Cart.t) : DB :=
  mkDB (products db) (<[userId := Cart.preSave c]> (carts db)) (orders db).

(** The unique index on [orderNumber]: some stored order has this number. *)
Definition numberTaken (db : DB) (o : Order.t) : bool :=
  existsb (λ o', bool_decide (Order.orderNumber o' = Order.orderNumber o))
          (orders db).

(** [Order.create]: validate, then run the pre-save hook, then insert
    unless the number is taken; the new document's id is its position in
    the collection. *)
Definition createOrder (now rnd : Z) (db : DB) (orderData : Order.t)
  : DB * Result (nat * Order.t) :=
  match Order.validate orderData with
  | Some path => (db, Err (schemaError path))
  | None =>
      let o := Order.preSave true now rnd orderData in
      if numberTaken db o then (db, Err (duplicateError "orderNumber"))
      else (mkDB (products db) (carts db) (orders db ++ [o]),
            Ok (length (orders db), o))
  end.

Definition saveOrder (db : DB) (i : nat) (o : Order.t) : DB :=
  mkDB (products db) (carts db) (<[i := o]> (orders db)).

Definition setProducts (db : DB) (ps : gmap ObjectId Product.t) : DB :=
  mkDB ps (carts db) (orders db).

(** [cart.save()] with the schema validators, where the items may have
    grown or changed. *)
Definition trySaveCart (db : DB) (userId : ObjectId) (c : Cart.t)
  : DB * Result Cart.t :=
  match Cart.validate c with
  | Some path => (db, Err (schemaError path))
  | None => (saveCart db userId c, Ok (Cart.preSave c))
  end.

(** [Cart.findOrCreateByUser]: the stored cart, items not populated, or a
    new empty one. *)
Definition findOrCreateByUser (db : DB) (userId : ObjectId) : DB * Cart.t :=
  match carts db !! userId with
  | Some c => (db, c)
  | None =>
      let c := Cart.mk [] 0 0%float in
      (saveCart db userId c, Cart.preSave c)
  end.

(** [Product.findOne({ _id: id, isActive: true })]. *)
Definition findActive (db : DB) (productId : ObjectId) : option Product.t :=
  p ← products db !! productId;
  if Product.isActive p then Some p else None.

(** The schema validators of a product, on the paths kept here. *)
Definition validateProduct (p : Product.t) : option string :=
  if negb (0 <=? Product.price p)%float then Some "price"
  else if negb (0 <=? Product.stock p) then Some "stock"
  else None.

(** [product.save()] for the product stored under [productId]. *)
Definition saveProduct (db : DB) (productId : ObjectId) (p : Product.t)
  : DB * Result Product.t :=
  match validateProduct p with
  | Some path => (db, Err (schemaError path))
  | None => (setProducts db (<[productId := p]> (products db)), Ok p)
  end.

(** The messages of the handlers below, beside those above, and the errors
    that carry them. *)
Inductive Notice : Type :=
  | Of (m : Message)
  | ProductIdRequired
  | QuantityMustBePositive
  | OnlyInStock (stock : Z)
  | CannotAdd (quantity more : Z)
  | StockValueRequired
  | InvalidOperation
  | AccessDeniedView.

Record Failure : Type := mkFailure {
  notice : Notice;
  status : Z;
  kind : string
}.

Definition failureOf (e : AppError) : Failure :=
  mkFailure (Of (message e)) (statusCode e) (type e).

Inductive Reply (A : Type) : Type :=
  | Sent (a : A)
  | Refused (f : Failure).
Arguments Sent {A} a.
Arguments Refused {A} f.

Definition replyOf {A : Type} (r : Result A) : Reply A :=
  match r with
  | Ok a => Sent a
  | Err e => Refused (failureOf e)
  end.

Definition isSent {A : Type} (r : Reply A) : bool :=
  match r with Sent _ => true | Refused _ => false end.

(** ** controllers/cartController.js *)

Module CartController.

(** The filter of [getCart]: the product exists, is active and has stock. *)
Definition isActiveItem (item : Populated) : bool :=
  match item.2 with
  | None => false
  | Some p => Product.isActive p && (0 <? Product.stock p)
  end.

(** [getCart]: the response carries the cart's items and totals. *)
Definition getCart (userId : ObjectId) (db : DB) : DB * Result Cart.t :=
  let '(db1, cart, populated) :=
    match findByUser db userId with
    | Some (c, populated) => (db, c, populated)
    | None =>
        let c := Cart.mk [] 0 0%float in
        (saveCart db userId c, Cart.preSave c, [])
    end in
  let activeItems := List.filter isActiveItem populated in
  if negb (length activeItems =? length (Cart.items cart))%nat
  then
    let cart1 := Cart.mk (fst <$> activeItems)
                         (Cart.totalItems cart) (Cart.totalAmount cart) in
    let cart2 := Cart.calculateTotals cart1 in
    (saveCart db1 userId cart2, Ok (Cart.preSave cart2))
  else (db1, Ok cart).

Definition addToCart (userId : ObjectId) (productId : option ObjectId)
    (quantity : Z) (db : DB) : DB * Reply Cart.t :=
  match productId with
  | None => (db, Refused (mkFailure ProductIdRequired 400 "ValidationError"))
  | Some productId =>
      if quantity <=? 0
      then (db, Refused (mkFailure QuantityMustBePositive 400
                                   "ValidationError"))
      else
        match findActive db productId with
        | None => (db, Refused (failureOf (createNotFoundError "Product")))
        | Some product =>
            if Product.stock product <? quantity
            then (db, Refused (mkFailure (OnlyInStock (Product.stock product))
                                         400 "StockError"))
            else
              let '(db1, cart) := findOrCreateByUser db userId in
              let existingQuantity :=
                match Cart.getItem cart productId with
                | Some existingItem => Cart.quantity existingItem
                | None => 0
                end in
              let newQuantity := existingQuantity + quantity in
              if Product.stock product <? newQuantity
              then (db1, Refused (mkFailure
                                    (CannotAdd quantity
                                       (Product.stock product - existingQuantity))
                                    400 "StockError"))
              else
                let '(db2, saved) :=
                  trySaveCart db1 userId
                    (Cart.addItem cart productId product quantity) in
                (db2, replyOf saved)
        end
  end.

(** [clearCart]: the response is an empty cart. *)
Definition clearCart (userId : ObjectId) (db : DB) : DB * Reply Cart.t :=
  match findByUser db userId with
  | None => (db, Refused (failureOf (createNotFoundError "Cart")))
  | Some (cart, _) =>
      (saveCart db userId (Cart.clearCart cart), Sent (Cart.mk [] 0 0%float))
  end.

Inductive IssueKind : Type :=
  | ProductNotFound
  | NoLongerAvailableIssue
  | OutOfStock
  | OnlyAvailable (availableStock requestedQuantity : Z).

Record Issue : Type := mkIssue {
  productId : option ObjectId;
  productName : option string;
  issue : IssueKind
}.

Definition action (i : Issue) : string :=
  match issue i with
  | OnlyAvailable _ _ => "reduce"
  | _ => "remove"
  end.

(** The loop of [validateCart] over the populated items. *)
Fixpoint checkItems (items : list Populated) (issues : list Issue)
    (validItems : list Cart.Item) : list Issue * list Cart.Item :=
  match items with
  | [] => (issues, validItems)
  | (item, product) :: rest =>
      match product with
      | None =>
          checkItems rest (issues ++ [mkIssue None None ProductNotFound])
                     validItems
      | Some p =>
          if negb (Product.isActive p)
          then checkItems rest
                 (issues ++ [mkIssue (Some (Cart.product item))
                                     (Some (Product.name p))
                                     NoLongerAvailableIssue])
                 validItems
          else if Product.stock p =? 0
          then checkItems rest
                 (issues ++ [mkIssue (Some (Cart.product item))
                                     (Some (Product.name p)) OutOfStock])
                 validItems
          else if Product.stock p <? Cart.quantity item
          then checkItems rest
                 (issues ++ [mkIssue (Some (Cart.product item))
                                     (Some (Product.name p))
                                     (OnlyAvailable (Product.stock p)
                                                    (Cart.quantity item))])
                 (validItems ++ [Cart.mkItem (Cart.product item)
                                             (Product.stock p)
                                             (Cart.price item)])
          else checkItems rest issues (validItems ++ [item])
      end
  end.

Record Validation : Type := mkValidation {
  isValid : bool;
  issues : list Issue;
  updatedCart : option Cart.t
}.

Definition validateCart (userId : ObjectId) (db : DB)
  : DB * Reply Validation :=
  match findByUser db userId with
  | None => (db, Sent (mkValidation true [] None))
  | Some (cart, populated) =>
      if Cart.isEmpty cart then (db, Sent (mkValidation true [] None))
      else
        let '(issues, validItems) := checkItems populated [] [] in
        if (0 <? length issues)%nat
        then
          let cart1 :=
            Cart.calculateTotals
              (Cart.mk validItems (Cart.totalItems cart)
                       (Cart.totalAmount cart)) in
          match trySaveCart db userId cart1 with
          | (db1, Err e) => (db1, Refused (failureOf e))
          | (db1, Ok saved) =>
              (db1, Sent (mkValidation false issues (Some saved)))
          end
        else (db, Sent (mkValidation true issues None))
  end.

End CartController.

(** ** controllers/orderController.js *)

Module OrderController.

Record Body : Type := mkBody {
  paymentMethod : string;
  shippingAddress : option Order.ShippingAddress
}.

Definition requiredAddressFields
  : list (string * (Order.ShippingAddress → string)) :=
  [("fullName", Order.fullName); ("addressLine1", Order.addressLine1);
   ("city", Order.city); ("state", Order.state);
   ("zipCode", Order.zipCode)].

(** The checks on the request body: the address when they all pass. *)
Definition validateBody (body : Body) : Result Order.ShippingAddress :=
  if String.eqb (paymentMethod body) ""
  then Err (createValidationError PaymentMethodRequired)
  else
    match shippingAddress body with
    | None => Err (createValidationError ShippingAddressRequired)
    | Some address =>
        match List.find (λ field, String.eqb (field.2 address) "")
                        requiredAddressFields with
        | Some field =>
            Err (createValidationError (ShippingAddressFieldRequired field.1))
        | None => Ok address
        end
    end.

Definition nameOrUnknown (product : option Product.t) : string :=
  match product with
  | Some p => if String.eqb (Product.name p) "" then "Unknown"
              else Product.name p
  | None => "Unknown"
  end.

(** The loop over the cart items: it stops at the first item that fails,
    and otherwise extends [orderItems] and [subtotal]. *)
Fixpoint validateItems (cartItems : list Populated)
    (orderItems : list Order.Item) (subtotal : float)
  : Result (list Order.Item * float) :=
  match cartItems with
  | [] => Ok (orderItems, subtotal)
  | (cartItem, product) :: rest =>
      match product with
      | None =>
          Err (mkAppError (NoLongerAvailable (nameOrUnknown product)) 400
                          "ValidationError")
      | Some p =>
          if negb (Product.isActive p)
          then Err (mkAppError (NoLongerAvailable (nameOrUnknown product))
                               400 "ValidationError")
          else if Product.stock p <? Cart.quantity cartItem
          then Err (mkAppError
                      (InsufficientStock (Product.name p) (Product.stock p))
                      400 "StockError")
          else
            let orderItem :=
              Order.mkItem (Cart.product cartItem) (Product.name p)
                (Product.price p) (Cart.quantity cartItem)
                (Product.price p * num (Cart.quantity cartItem))%float in
            validateItems rest (orderItems ++ [orderItem])
                          (subtotal + Order.subtotal orderItem)%float
      end
  end.

Definition taxOf (subtotal : float) : float := (subtotal * 0.08)%float.

Definition shippingOf (subtotal : float) : float :=
  if (50 <? subtotal)%float then 0%float else 10%float.

Definition orderDataOf (userId : ObjectId) (cart : Cart.t) (body : Body)
    (address : Order.ShippingAddress) (orderItems : list Order.Item)
    (subtotal : float) : Order.t :=
  let tax := taxOf subtotal in
  let shipping := shippingOf subtotal in
  let totalAmount := (subtotal + tax + shipping)%float in
  Order.mk None userId orderItems (Cart.totalItems cart) subtotal tax
    shipping totalAmount (paymentMethod body) Order.paymentPending
    Order.pending address None None None None.

(** The stock loop: one unconditional [$inc] of [-quantity] per item. *)
Definition reduceStocks (orderItems : list Order.Item)
    (ps : gmap ObjectId Product.t) : gmap ObjectId Product.t :=
  fold_left (λ ps item,
               Product.incStock (Order.product item) (- Order.quantity item) ps)
            orderItems ps.

(** The loop of [cancelOrder]: one [$inc] of [quantity] per item. *)
Definition restoreStocks (orderItems : list Order.Item)
    (ps : gmap ObjectId Product.t) : gmap ObjectId Product.t :=
  fold_left (λ ps item,
               Product.incStock (Order.product item) (Order.quantity item) ps)
            orderItems ps.

(** [placeOrder] down to its call of [Order.create]: the error of the
    first check that fails, or the [orderData] it hands to
    [Order.create]. *)
Definition orderDataFor (userId : ObjectId) (body : Body) (db : DB)
  : Result Order.t :=
  match validateBody body with
  | Err e => Err e
  | Ok address =>
      match findByUser db userId with
      | None => Err (mkAppError CartIsEmpty 400 "ValidationError")
      | Some (cart, cartItems) =>
          if Cart.isEmpty cart
          then Err (mkAppError CartIsEmpty 400 "ValidationError")
          else
            match validateItems cartItems [] 0%float with
            | Err e => Err e
            | Ok (orderItems, subtotal) =>
                Ok (orderDataOf userId cart body address orderItems subtotal)
            end
      end
  end.

Definition placeOrder (now rnd : Z) (userId : ObjectId) (body : Body)
    (db : DB) : DB * Result (nat * Order.t) :=
  match validateBody body with
  | Err e => (db, Err e)
  | Ok address =>
      match findByUser db userId with
      | None => (db, Err (mkAppError CartIsEmpty 400 "ValidationError"))
      | Some (cart, cartItems) =>
          if Cart.isEmpty cart
          then (db, Err (mkAppError CartIsEmpty 400 "ValidationError"))
          else
            match validateItems cartItems [] 0%float with
            | Err e => (db, Err e)
            | Ok (orderItems, subtotal) =>
                let orderData :=
                  orderDataOf userId cart body address orderItems subtotal in
                match createOrder now rnd db orderData with
                | (db1, Err e) => (db1, Err e)
                | (db1, Ok order) =>
                    let db2 :=
                      setProducts db1 (reduceStocks orderItems (products db1)) in
                    (saveCart db2 userId (Cart.clearCart cart), Ok order)
                end
            end
      end
  end.

Definition updateOrderStatus (now rnd : Z) (orderId : nat) (status : string)
    (reason : option string) (db : DB) : DB * Result Order.t :=
  if String.eqb status ""
  then (db, Err (createValidationError StatusRequired))
  else
    match orders db !! orderId with
    | None => (db, Err (createNotFoundError "Order"))
    | Some order =>
        match Order.updateStatus now rnd order status reason with
        | Err e => (db, Err e)
        | Ok order' => (saveOrder db orderId order', Ok order')
        end
    end.

Definition cancelOrder (now rnd : Z) (who : Principal) (orderId : nat)
    (reason : option string) (db : DB) : DB * Result Order.t :=
  match orders db !! orderId with
  | None => (db, Err (createNotFoundError "Order"))
  | Some order =>
      if negb (isAdminRole (role who))
         && strictNotEqual (Str (toString (Order.user order))) (Oid (id who))
      then (db, Err (mkAppError AccessDeniedCancel 403 "AuthorizationError"))
      else if negb (Order.canBeCancelled order)
      then (db, Err (mkAppError CannotBeCancelled 400 "ValidationError"))
      else
        let db1 :=
          setProducts db (restoreStocks (Order.items order) (products db)) in
        match Order.updateStatus now rnd order "cancelled" reason with
        | Err e => (db1, Err e)
        | Ok order' => (saveOrder db1 orderId order', Ok order')
        end
  end.

(** [getOrderById]: the order, when the access test lets the requester
    through. *)
Definition getOrderById (who : Principal) (orderId : nat) (db : DB)
  : Reply Order.t :=
  match orders db !! orderId with
  | None => Refused (failureOf (createNotFoundError "Order"))
  | Some order =>
      if negb (isAdminRole (role who))
         && strictNotEqual (Str (toString (Order.user order))) (Oid (id who))
      then Refused (mkFailure AccessDeniedView 403 "AuthorizationError")
      else Sent order
  end.

Record Pagination : Type := mkPagination {
  currentPage : Z;
  totalPages : Z;
  totalOrders : Z;
  hasNextPage : bool;
  hasPrevPage : bool;
  limit : Z
}.

(** [Math.ceil(a / b)] for a count [a] and a positive [b]. *)
Definition ceilDiv (a b : Z) : Z := (a + b - 1) / b.

Definition paginationOf (pageNum limitNum total : Z) : Pagination :=
  let totalPages := ceilDiv total limitNum in
  mkPagination pageNum totalPages total (pageNum <? totalPages)
               (1 <? pageNum) limitNum.

(** [.skip(skip).limit(limitNum)] on the results of a query. *)
Definition skipLimit {A : Type} (skip limitNum : Z) (results : list A)
  : list A :=
  take (Z.to_nat limitNum) (drop (Z.to_nat skip) results).

(** The filter of [getUserOrders]: the user's orders, of one status when
    the query names one. *)
Definition matchesQuery (userId : ObjectId) (status : string)
    (entry : nat * Order.t) : bool :=
  bool_decide (Order.user entry.2 = userId)
  && (String.eqb status ""
      || bool_decide (Order.statusOfString status
                      = Some (Order.orderStatus entry.2))).

(** [getUserOrders], for a page number and a limit from 1 up. The orders
    are stored in the order of their creation, so the newest come first in
    the reverse of the collection. *)
Definition getUserOrders (userId : ObjectId) (status : string)
    (page limitNum : positive) (db : DB)
  : list (nat * Order.t) * Pagination :=
  let pageNum := Zpos page in
  let limitNum := Zpos limitNum in
  let skip := (pageNum - 1) * limitNum in
  let found :=
    reverse (List.filter (matchesQuery userId status)
                         (imap (λ i o, (i, o)) (orders db))) in
  (skipLimit skip limitNum found,
   paginationOf pageNum limitNum (Z.of_nat (length found))).

End OrderController.

(** ** controllers/productController.js *)

Module ProductController.

(** [getProductById]: only an active product is shown. *)
Definition getProductById (productId : ObjectId) (db : DB)
  : Reply Product.t :=
  match findActive db productId with
  | None => Refused (failureOf (createNotFoundError "Product"))
  | Some product => Sent product
  end.

(** [deleteProduct]: a soft delete. *)
Definition deleteProduct (productId : ObjectId) (db : DB) : DB * Reply unit :=
  match products db !! productId with
  | None => (db, Refused (failureOf (createNotFoundError "Product")))
  | Some product =>
      let product' :=
        Product.mk (Product.name product) (Product.price product)
                   (Product.stock product) false in
      match saveProduct db productId product' with
      | (db1, Err e) => (db1, Refused (failureOf e))
      | (db1, Ok _) => (db1, Sent tt)
      end
  end.

(** [updateProductStock], for a stock value that [parseInt] reads as the
    integer [n]; [operation] is "set" when the request names none. *)
Definition updateProductStock (productId : ObjectId) (stock : option Z)
    (operation : option string) (db : DB) : DB * Reply Product.t :=
  match stock with
  | None => (db, Refused (mkFailure StockValueRequired 400 "ValidationError"))
  | Some n =>
      match products db !! productId with
      | None => (db, Refused (failureOf (createNotFoundError "Product")))
      | Some product =>
          let operation := default "set" operation in
          let updated :=
            if String.eqb operation "set"
            then Some (Product.setStock product n)
            else if String.eqb operation "add"
            then Some (Product.setStock product (Product.stock product + n))
            else if String.eqb operation "subtract"
            then Some (Product.setStock product
                         (if Product.stock product - n <? 0 then 0
                          else Product.stock product - n))
            else None in
          match updated with
          | None =>
              (db, Refused (mkFailure InvalidOperation 400 "ValidationError"))
          | Some product' =>
              let '(db1, saved) := saveProduct db productId product' in
              (db1, replyOf saved)
          end
      end
  end.

End ProductController.

(** ** Requests in flight

    Node runs a handler without interruption from one [await] to the next,
    and every [await] of [placeOrder] waits for database operations, each
    of which the database executes atomically. [Cart.findByUser] is two of
    them: the [findOne] on the carts and the query on the products that
    populates the items. A task is a [placeOrder] call stopped at an
    operation: the operation it waits for and the local variables it
    resumes with. *)

Module Concurrent.
Import OrderController.

Inductive Task : Type :=
  | AwaitFindOne (userId : ObjectId) (body : Body)
      (address : Order.ShippingAddress)
  | AwaitPopulate (userId : ObjectId) (body : Body)
      (address : Order.ShippingAddress) (cart : Cart.t)
  | AwaitCreate (userId : ObjectId) (cart : Cart.t)
      (orderItems : list Order.Item) (orderData : Order.t)
  | AwaitInc (userId : ObjectId) (cart : Cart.t) (order : nat * Order.t)
      (item : Order.Item) (rest : list Order.Item)
  | AwaitSave (userId : ObjectId) (cart : Cart.t) (order : nat * Order.t)
  | AwaitPopulateOrder (order : nat * Order.t)
  | Done (r : Result (nat * Order.t)).

(** The handler up to its first [await]. *)
Definition start (userId : ObjectId) (body : Body) : Task :=
  match validateBody body with
  | Err e => Done (Err e)
  | Ok address => AwaitFindOne userId body address
  end.

(** The stock loop, stopped at its next [$inc] or left. *)
Definition nextInc (userId : ObjectId) (cart : Cart.t)
    (order : nat * Order.t) (remaining : list Order.Item) : Task :=
  match remaining with
  | item :: rest => AwaitInc userId cart order item rest
  | [] => AwaitSave userId cart order
  end.

(** The awaited operation runs on the database as it is now, and the
    handler continues to its next operation. *)
Definition step (now rnd : Z) (db : DB) (t : Task) : DB * Task :=
  match t with
  | AwaitFindOne userId body address =>
      match carts db !! userId with
      | None => (db, Done (Err (mkAppError CartIsEmpty 400 "ValidationError")))
      | Some cart => (db, AwaitPopulate userId body address cart)
      end
  | AwaitPopulate userId body address cart =>
      let cartItems := populate db <$> Cart.items cart in
      if Cart.isEmpty cart
      then (db, Done (Err (mkAppError CartIsEmpty 400 "ValidationError")))
      else
        match validateItems cartItems [] 0%float with
        | Err e => (db, Done (Err e))
        | Ok (orderItems, subtotal) =>
            (db, AwaitCreate userId cart orderItems
                   (orderDataOf userId cart body address orderItems
                                subtotal))
        end
  | AwaitCreate userId cart orderItems orderData =>
      match createOrder now rnd db orderData with
      | (db1, Err e) => (db1, Done (Err e))
      | (db1, Ok order) => (db1, nextInc userId cart order orderItems)
      end
  | AwaitInc userId cart order item rest =>
      (setProducts db
         (Product.incStock (Order.product item) (- Order.quantity item)
                           (products db)),
       nextInc userId cart order rest)
  | AwaitSave userId cart order =>
      (saveCart db userId (Cart.clearCart cart), AwaitPopulateOrder order)
  | AwaitPopulateOrder order => (db, Done (Ok order))
  | Done r => (db, Done r)
  end.

(** One request running alone for [n] steps. *)
Fixpoint run (n : nat) (now rnd : Z) (db : DB) (t : Task) : DB * Task :=
  match n with
  | O => (db, t)
  | S n' => let '(db1, t1) := step now rnd db t in run n' now rnd db1 t1
  end.

(** Two requests and a schedule: [true] lets the first one take a step,
    [false] the second. Each request has its own random suffix. *)
Fixpoint interleave (schedule : list bool) (now rnd1 rnd2 : Z) (db : DB)
    (t1 t2 : Task) : DB * Task * Task :=
  match schedule with
  | [] => (db, t1, t2)
  | true :: schedule' =>
      let '(db1, t1') := step now rnd1 db t1 in
      interleave schedule' now rnd1 rnd2 db1 t1' t2
  | false :: schedule' =>
      let '(db1, t2') := step now rnd2 db t2 in
      interleave schedule' now rnd1 rnd2 db1 t1 t2'
  end.

Definition succeeded (t : Task) : bool :=
  match t with Done (Ok _) => true | _ => false end.

Definition failedWith (ty : string) (t : Task) : bool :=
  match t with Done (Err e) => String.eqb (type e) ty | _ => false end.

End Concurrent.

(** ** The specification's vocabulary *)

Section Vocabulary.
Import OrderController Concurrent.

(** A cart line that passes the checks of the placement loop. *)
Definition lineOk (x : Populated) : bool :=
  match x.2 with
  | None => false
  | Some p =>
      Product.isActive p && (Cart.quantity x.1 <=? Product.stock p)
  end.

(** The order items the loop builds from the lines whose product exists. *)
Definition snapshot (l : list Populated) : list Order.Item :=
  flat_map (λ x : Populated,
              match x.2 with
              | Some p =>
                  [Order.mkItem (Cart.product x.1) (Product.name p)
                     (Product.price p) (Cart.quantity x.1)
                     (Product.price p * num (Cart.quantity x.1))%float]
              | None => []
              end) l.

Record Totals : Type := mkTotals {
  subtotal : float;
  tax : float;
  shipping : float;
  total : float
}.


Definition linesOf (o : Order.t) : list (float * Z) :=
  (λ item, (Order.price item, Order.quantity item)) <$> Order.items o.

Definition totalsOf (o : Order.t) : Totals :=
  mkTotals (Order.orderSubtotal o) (Order.tax o) (Order.shipping o)
           (Order.totalAmount o).

(** The subtotal over exact rationals: the sum of the exact values of the
    prices times the quantities. *)
Definition exactSubtotal (lines : list (float * Z)) : option Q :=
  fold_left (λ acc line,
               a ← acc; v ← float_value line.1;
               Some (a + v * inject_Z line.2)%Q)
            lines (Some (0 # 1)%Q).

(** A [Number] holds exactly the rational [q]. *)
Definition exactly (f : float) (q : option Q) : Prop :=
  ∃ a b, float_value f = Some a ∧ q = Some b ∧ (a == b)%Q.

Definition stockOf (db : DB) (productId : ObjectId) : option Z :=
  Product.stock <$> products db !! productId.

Definition statusOf (db : DB) (orderId : nat) : option Order.Status :=
  Order.orderStatus <$> orders db !! orderId.

(** The quantity of one product that an order holds, over all its lines. *)
Definition orderedQuantity (productId : ObjectId) (l : list Order.Item) : Z :=
  foldr (λ item total,
           if bool_decide (Order.product item = productId)
           then Order.quantity item + total else total) 0 l.

(** The items of the cart stored for a user; none when there is no cart. *)
Definition storedItems (db : DB) (userId : ObjectId) : list Cart.Item :=
  match carts db !! userId with
  | Some c => Cart.items c
  | None => []
  end.

(** The product of a cart item exists, is active and has stock. *)
Definition available (db : DB) (item : Cart.Item) : bool :=
  match products db !! Cart.product item with
  | Some p => Product.isActive p && (0 <? Product.stock p)
  | None => false
  end.

(** A line that [validateCart] keeps comes from a line of the cart, with
    the same product and price and a quantity that is not larger and is
    covered by the stock of the product, which is active. *)
Definition keptFrom (l : list Populated) (kept : Cart.Item) : Prop :=
  ∃ item p, (item, Some p) ∈ l
    ∧ Cart.product kept = Cart.product item
    ∧ Cart.price kept = Cart.price item
    ∧ Cart.quantity kept ≤ Cart.quantity item
    ∧ Cart.quantity kept ≤ Product.stock p
    ∧ Product.isActive p = true.


(** Every stored cart has at most one line per product. *)
Definition oneLinePerProduct (db : DB) : Prop :=
  map_Forall (λ _ c, NoDup (Cart.product <$> Cart.items c)) (carts db).

(** The number of steps a schedule gives to its first request ([true]) or
    to its second ([false]). *)
Definition turns (which : bool) (schedule : list bool) : nat :=
  length (List.filter (Bool.eqb which) schedule).

(** A request in flight that has not got past [Order.create]: it waits for
    one of its two reads, or for [Order.create] with order data that
    carry no order number, or it has ended with an error. *)
Definition notPlaced (t : Task) : Prop :=
  match t with
  | AwaitFindOne _ _ _ => True
  | AwaitPopulate _ _ _ _ => True
  | AwaitCreate _ _ _ orderData => Order.orderNumber orderData = None
  | Done (Err _) => True
  | _ => False
  end.

(** A request to one of the handlers, with what it reads from the request
    and from the clock. The routes let a status update, a withdrawal of a
    product and a stock update reach their handlers for an admin only. *)
Inductive Request : Type :=
  | GetCart (userId : ObjectId)
  | AddToCart (userId : ObjectId) (productId : option ObjectId) (quantity : Z)
  | ClearCart (userId : ObjectId)
  | ValidateCart (userId : ObjectId)
  | PlaceOrder (now rnd : Z) (userId : ObjectId) (body : Body)
  | UpdateOrderStatus (now rnd : Z) (orderId : nat) (status : string)
                      (reason : option string)
  | CancelOrder (now rnd : Z) (who : Principal) (orderId : nat)
                (reason : option string)
  | DeleteProduct (productId : ObjectId)
  | UpdateProductStock (productId : ObjectId) (stock : option Z)
                       (operation : option string).

(** The database after a request has been served, start to end. *)
Definition serve (db : DB) (r : Request) : DB :=
  match r with
  | GetCart userId => (CartController.getCart userId db).1
  | AddToCart userId productId quantity =>
      (CartController.addToCart userId productId quantity db).1
  | ClearCart userId => (CartController.clearCart userId db).1
  | ValidateCart userId => (CartController.validateCart userId db).1
  | PlaceOrder now rnd userId body => (placeOrder now rnd userId body db).1
  | UpdateOrderStatus now rnd orderId status reason =>
      (updateOrderStatus now rnd orderId status reason db).1
  | CancelOrder now rnd who orderId reason =>
      (cancelOrder now rnd who orderId reason db).1
  | DeleteProduct productId => (ProductController.deleteProduct productId db).1
  | UpdateProductStock productId stock operation =>
      (ProductController.updateProductStock productId stock operation db).1
  end.

End Vocabulary.

(** ** Example databases *)

Module Examples.
Import OrderController.

Definition address : Order.ShippingAddress :=
  Order.mkAddress "Ann Lee" "1 Main Road" "" "Springfield" "IL" "62701"
                  "United States" "".

Definition body : Body := mkBody "Card" (Some address).

Definition now : Z := 1700000000000.
Definition rnd : Z := 42.

Definition alice : ObjectId := 7%nat.
Definition bob : ObjectId := 8%nat.
Definition productA : ObjectId := 1%nat.
Definition productB : ObjectId := 2%nat.

(** Product A at $10 with stock 10, product B at $5 with stock 4; Alice's
    cart holds two of A and one of B. *)
Definition shop : DB :=
  mkDB (<[productA := Product.mk "A" 10%float 10 true]>
          (<[productB := Product.mk "B" 5%float 4 true]> ∅))
       (<[alice := Cart.mk [Cart.mkItem productA 2 10%float;
                            Cart.mkItem productB 1 5%float] 3 25%float]> ∅)
       [].

(** One product at $0.10; Alice's cart holds three of it. *)
Definition dimes : DB :=
  mkDB (<[productA := Product.mk "A" 0.1%float 10 true]> ∅)
       (<[alice := Cart.mk [Cart.mkItem productA 3 0.1%float] 3
                           0.30000000000000004%float]> ∅)
       [].

(** Stock 3 of product A, and a cart asking for 5. *)
Definition scarce : DB :=
  mkDB (<[productA := Product.mk "A" 10%float 3 true]> ∅)
       (<[alice := Cart.mk [Cart.mkItem productA 5 10%float] 5 50%float]> ∅)
       [].

(** Product A withdrawn from sale (soft-deleted), still in Alice's cart. *)
Definition withdrawn : DB :=
  mkDB (<[productA := Product.mk "A" 10%float 3 false]> ∅)
       (<[alice := Cart.mk [Cart.mkItem productA 1 10%float] 1 10%float]> ∅)
       [].

(** Stock 1 of product A; Alice and Bob each have one of it in their
    cart. *)
Definition lastOne : DB :=
  mkDB (<[productA := Product.mk "A" 10%float 1 true]> ∅)
       (<[alice := Cart.mk [Cart.mkItem productA 1 10%float] 1 10%float]>
          (<[bob := Cart.mk [Cart.mkItem productA 1 10%float] 1 10%float]> ∅))
       [].

Definition emptyCart : Cart.t := Cart.mk [] 0 0%float.

(** Product A, first at $10 and then repriced at $12. *)
Definition atTen : Product.t := Product.mk "A" 10%float 10 true.
Definition atTwelve : Product.t := Product.mk "A" 12%float 10 true.

(** An order of Alice's for two of A and one of B, as the database holds
    it. *)
Definition aliceOrder : Order.t :=
  Order.mk (Some (0, 42)) alice
    [Order.mkItem productA "A" 10%float 2 20%float;
     Order.mkItem productB "B" 5%float 1 5%float]
    3 25%float 2%float 10%float 37%float "Card" Order.paymentPending
    Order.pending address (Some 1700604800000) None None None.

(** A database that holds that order, the stock that is left of the 10 of
    A and the 4 of B, and Alice's cart, empty; and the same after an admin
    has marked the order confirmed, shipped or delivered. *)
Definition placed : DB :=
  mkDB (<[productA := Product.mk "A" 10%float 8 true]>
          (<[productB := Product.mk "B" 5%float 3 true]> ∅))
       (<[alice := Cart.mk [] 0 0%float]> ∅)
       [aliceOrder].

Definition confirmedOrder : DB :=
  (updateOrderStatus now rnd 0 "confirmed" None placed).1.

Definition shippedOrder : DB :=
  (updateOrderStatus now rnd 0 "shipped" None placed).1.

Definition deliveredOrder : DB :=
  (updateOrderStatus now rnd 0 "delivered" None placed).1.

Definition aliceHerself : Principal := mkPrincipal alice user.
Definition carol : ObjectId := 9%nat.
Definition theAdmin : Principal := mkPrincipal carol admin.

(** Product A on sale and product B withdrawn; Alice's cart holds both. *)
Definition halfGone : DB :=
  mkDB (<[productA := Product.mk "A" 10%float 10 true]>
          (<[productB := Product.mk "B" 5%float 4 false]> ∅))
       (<[alice := Cart.mk [Cart.mkItem productA 2 10%float;
                            Cart.mkItem productB 1 5%float] 3 25%float]> ∅)
       [].

(** Alice's request and Bob's take turns at every database operation. *)
Definition turnByTurn : list bool :=
  [true; false; true; false; true; false].

(** Alice's request runs to its end before Bob's starts. *)
Definition oneAfterTheOther : list bool :=
  [true; true; true; false; false; false].

(** The shop after product A has been repriced to $12; Alice's cart still
    keeps the $10 it saw. *)
Definition repriced : DB :=
  setProducts shop (<[productA := atTwelve]> (products shop)).

(** Bob fills a cart and asks for an order, an admin cancels the order
    of Alice's that the database holds, reopens it and cancels it again,
    lowers the stock of B and withdraws A. *)
Definition busyDay : list Request :=
  [AddToCart bob (Some productA) 3;
   AddToCart bob (Some productA) 4;
   AddToCart bob (Some productB) 3;
   GetCart bob;
   ValidateCart bob;
   PlaceOrder now rnd bob body;
   CancelOrder (now + 1) rnd theAdmin 0%nat None;
   UpdateOrderStatus (now + 2) rnd 0%nat "pending" None;
   CancelOrder (now + 3) rnd theAdmin 0%nat None;
   UpdateProductStock productB (Some 7) (Some "subtract");
   DeleteProduct productA;
   ClearCart bob].

End Examples.

(** * Properties *)

(** ** The checks of order placement, and [Order.create] *)

Section Placement.
Import OrderController.

Lemma validateItems_Ok l : ∀ acc s its sub,
  validateItems l acc s = Ok (its, sub) →
  forallb lineOk l = true ∧ its = (acc ++ snapshot l)%list
  ∧ sub = fold_left (λ total item, (total + Order.subtotal item)%float)
                    (snapshot l) s.
Proof.
  induction l as [|[cartItem [p|]] l IH]; intros acc s its sub H; simpl in H.
  - injection H as <- <-. by rewrite app_nil_r.
  - destruct (Product.isActive p) eqn:Ha; simpl in H; [|discriminate].
    destruct (Product.stock p <? Cart.quantity cartItem) eqn:Hs;
      [discriminate|].
    apply IH in H as (Hl & -> & ->).
    split; [|split].
    + simpl. unfold lineOk at 1. simpl. rewrite Ha, Hl.
      apply Z.ltb_ge in Hs. apply Z.leb_le in Hs. by rewrite Hs.
    + simpl. by rewrite <- app_assoc.
    + reflexivity.
  - discriminate.
Qed.

Lemma validateItems_complete l : ∀ acc s,
  forallb lineOk l = true →
  validateItems l acc s
  = Ok ((acc ++ snapshot l)%list,
        fold_left (λ total item, (total + Order.subtotal item)%float)
                  (snapshot l) s).
Proof.
  induction l as [|[cartItem [p|]] l IH]; intros acc s H; simpl in *.
  - by rewrite app_nil_r.
  - unfold lineOk in H at 1. simpl in H.
    apply andb_prop in H as [H Hl]. apply andb_prop in H as [Ha Hs].
    rewrite Ha. simpl. apply Z.leb_le in Hs.
    destruct (Z.ltb_spec (Product.stock p) (Cart.quantity cartItem)); [lia|].
    rewrite IH by done. by rewrite <- app_assoc.
  - discriminate.
Qed.

(** The order data that pass the checks of [placeOrder]. *)
Lemma orderDataFor_Ok userId body db data :
  orderDataFor userId body db = Ok data →
  ∃ address cart,
    validateBody body = Ok address
    ∧ carts db !! userId = Some cart
    ∧ Cart.isEmpty cart = false
    ∧ forallb lineOk (populate db <$> Cart.items cart) = true
    ∧ data = orderDataOf userId cart body address
               (snapshot (populate db <$> Cart.items cart))
               (Order.sumSubtotal (snapshot (populate db <$> Cart.items cart))).
Proof.
  unfold orderDataFor, findByUser. intros H.
  destruct (validateBody body) as [address|] eqn:Hb; [|done].
  destruct (carts db !! userId) as [cart|] eqn:Hc; simpl in H; [|done].
  destruct (Cart.isEmpty cart) eqn:He; [done|].
  destruct (validateItems _ _ _) as [[orderItems sub]|] eqn:Hv; [|done].
  apply validateItems_Ok in Hv as (Hl & -> & ->). simpl in H.
  injection H as <-. by exists address, cart.
Qed.

(** [Order.create] refuses order data that carry no order number. *)
Lemma createOrder_refuses now rnd db data :
  Order.orderNumber data = None →
  createOrder now rnd db data = (db, Err (schemaError "orderNumber")).
Proof.
  intros H. unfold createOrder, Order.validate. by rewrite H.
Qed.


(** [placeOrder] answers with the error of its checks, or with the refusal
    of [Order.create], and leaves the database as it was. *)
Lemma placeOrder_refused now rnd userId body db :
  placeOrder now rnd userId body db
  = (db, Err match orderDataFor userId body db with
             | Err e => e
             | Ok _ => schemaError "orderNumber"
             end).
Proof.
  unfold placeOrder, orderDataFor.
  destruct (validateBody body) as [address|]; [|done].
  destruct (findByUser db userId) as [[cart cartItems]|]; [|done].
  destruct (Cart.isEmpty cart); [done|].
  destruct (validateItems cartItems [] 0%float) as [[orderItems sub]|];
    [|done].
  by rewrite createOrder_refuses.
Qed.

End Placement.

(** ** Pricing *)

Section Pricing.
Import OrderController.

Lemma fixSubtotal_snapshot l :
  Order.fixSubtotal <$> snapshot l = snapshot l.
Proof.
  induction l as [|[cartItem [p|]] l IH]; simpl; [done| |done].
  f_equal. exact IH.
Qed.

Lemma snapshot_nil l :
  forallb lineOk l = true → snapshot l = [] → l = [].
Proof.
  destruct l as [|[cartItem [p|]] l]; [done| |]; simpl; discriminate.
Qed.

Lemma sumSubtotal_fixed l : ∀ acc,
  fold_left (λ total item, (total + Order.subtotal item)%float)
            (Order.fixSubtotal <$> l) acc
  = fold_left (λ acc line, (acc + line.1 * num line.2)%float)
              ((λ item, (Order.price item, Order.quantity item)) <$> l) acc.
Proof. induction l as [|item l IH]; intros acc; simpl; [done|apply IH]. Qed.

(** The order data that [placeOrder] builds: the items are the snapshot of
    the cart, and the totals are computed from them. *)
Lemma orderData_totals userId body db data :
  orderDataFor userId body db = Ok data →
  ∃ cart, carts db !! userId = Some cart
    ∧ Order.items data = snapshot (populate db <$> Cart.items cart)
    ∧ Order.items data ≠ []
    ∧ Order.orderNumber data = None
    ∧ Order.orderSubtotal data = Order.sumSubtotal (Order.items data)
    ∧ Order.tax data = taxOf (Order.orderSubtotal data)
    ∧ Order.shipping data = shippingOf (Order.orderSubtotal data)
    ∧ Order.totalAmount data
      = (Order.orderSubtotal data + Order.tax data
         + Order.shipping data)%float
    ∧ Order.orderStatus data = Order.pending
    ∧ Order.user data = userId.
Proof.
  intros H. apply orderDataFor_Ok in H
    as (address & cart & Hb & Hc & He & Hl & ->).
  exists cart. simpl. repeat split; try done.
  intros Hnil. apply snapshot_nil in Hnil; [|done].
  apply fmap_nil_inv in Hnil. unfold Cart.isEmpty in He.
  by rewrite Hnil in He.
Qed.

Lemma orderData_subtotal userId body db data :
  orderDataFor userId body db = Ok data →
  Order.orderSubtotal data
  = fold_left (λ acc line, (acc + line.1 * num line.2)%float)
              (linesOf data) 0%float.
Proof.
  intros H. apply orderData_totals in H
    as (cart & _ & Hitems & _ & _ & Hsub & _).
  rewrite Hsub. unfold Order.sumSubtotal, linesOf.
  rewrite Hitems, <- sumSubtotal_fixed. by rewrite fixSubtotal_snapshot.
Qed.

End Pricing.

(** ** C4: the totals that order placement computes *)

Section PlacementTotals.
Import OrderController Examples.



End PlacementTotals.

(** ** C7: the arithmetic of the totals *)

Section Exactness.
Import OrderController Examples.

Lemma fixSubtotal_twice (l : list Order.Item) :
  Order.fixSubtotal <$> (Order.fixSubtotal <$> l) = Order.fixSubtotal <$> l.
Proof.
  induction l as [|x l IH]; simpl; [done|].
  apply (f_equal2 cons); [done|exact IH].
Qed.

Lemma sumQuantity_fixSubtotal (l : list Order.Item) : ∀ acc,
  fold_left (λ total item, total + Order.quantity item)
            (Order.fixSubtotal <$> l) acc
  = fold_left (λ total item, total + Order.quantity item) l acc.
Proof. induction l as [|x l IH]; intros acc; simpl; [done|apply IH]. Qed.

(** The second recomputation of the totals of an order reaches a fixed
    point. *)
Lemma calculateTotals_twice o :
  Order.calculateTotals (Order.calculateTotals (Order.calculateTotals o))
  = Order.calculateTotals (Order.calculateTotals o).
Proof.
  unfold Order.calculateTotals, Order.sumQuantity. simpl.
  by rewrite !fixSubtotal_twice, !sumQuantity_fixSubtotal.
Qed.

Lemma iter_fixed {A : Type} (f : A → A) (x : A) (n : nat) :
  f x = x → Nat.iter n f x = x.
Proof. intros H. induction n as [|n IH]; simpl; [done|]. by rewrite IH. Qed.

(** The amounts of an order whose item subtotals and totals are already
    those [calculateTotals] computes stay as they are. *)
Lemma totalsOf_iter o n :
  Order.fixSubtotal <$> Order.items o = Order.items o →
  Order.orderSubtotal o = Order.sumSubtotal (Order.items o) →
  Order.totalAmount o
  = (Order.orderSubtotal o + Order.tax o + Order.shipping o)%float →
  totalsOf (Nat.iter n Order.calculateTotals o) = totalsOf o
  ∧ Order.items (Nat.iter n Order.calculateTotals o) = Order.items o.
Proof.
  intros Hi Hs Ht. induction n as [|n [IHt IHi]]; [done|].
  simpl. unfold totalsOf in *. simpl. rewrite IHi, Hi.
  injection IHt as _ Htax Hship _. by rewrite Htax, Hship, <- Hs, <- Ht.
Qed.

(** C7, as the code has it. The amounts are JavaScript Numbers, computed
    in binary floating point: in the order data that order placement
    computes, the subtotal is the left-to-right floating-point sum of the
    floating-point products price times quantity, and the total is the
    floating-point sum of subtotal, tax and shipping; recomputing the
    totals of these data, any number of times, leaves the amounts as they
    are. On any order document, the totals do not change any more after
    their second recomputation. *)
Theorem totals_recompute userId body db data n :
  orderDataFor userId body db = Ok data →
  Order.orderSubtotal data
  = fold_left (λ acc line, (acc + line.1 * num line.2)%float)
              (linesOf data) 0%float
  ∧ Order.totalAmount data
    = (Order.orderSubtotal data + Order.tax data + Order.shipping data)%float
  ∧ totalsOf (Nat.iter n Order.calculateTotals data) = totalsOf data
  ∧ Order.items (Nat.iter n Order.calculateTotals data) = Order.items data
  ∧ ∀ o, Nat.iter n Order.calculateTotals
           (Order.calculateTotals (Order.calculateTotals o))
         = Order.calculateTotals (Order.calculateTotals o).
Proof.
  intros H. pose proof (orderData_subtotal _ _ _ _ H) as Hs.
  apply orderData_totals in H
    as (cart & _ & Hitems & _ & _ & Hsub & _ & _ & Htot & _).
  split; [done|]. split; [done|].
  assert (Hfix : Order.fixSubtotal <$> Order.items data = Order.items data).
  { rewrite Hitems. apply fixSubtotal_snapshot. }
  destruct (totalsOf_iter data n Hfix Hsub Htot) as [Ht Hi].
  split; [done|]. split; [done|].
  intros o. apply iter_fixed, calculateTotals_twice.
Qed.

(** Three items at $0.10: the subtotal that is computed is
    0.30000000000000004, and three recomputations leave it. *)
Lemma totals_recompute_example :
  ∃ data,
    orderDataFor alice body dimes = Ok data
    ∧ Order.orderSubtotal data = 0.30000000000000004%float
    ∧ totalsOf (Nat.iter 3 Order.calculateTotals data) = totalsOf data.
Proof.
  eexists. split; [reflexivity|].
  destruct (totals_recompute alice body dimes _ 3 eq_refl)
    as (Hsub & _ & Hiter & _).
  split; [|exact Hiter].
  refine (eq_trans Hsub _). vm_compute. reflexivity.
Defined.

(** Against C7 as stated: for three items at $0.10 the subtotal that order
    placement computes is not the exact sum of price times quantity. *)
Lemma subtotal_not_exact :
  ∃ data,
    orderDataFor alice body dimes = Ok data
    ∧ ¬ exactly (Order.orderSubtotal data) (exactSubtotal (linesOf data)).
Proof.
  eexists. split; [reflexivity|].
  intros (a & b & Ha & Hb & Hab).
  vm_compute in Ha. vm_compute in Hb.
  injection Ha as <-. injection Hb as <-.
  vm_compute in Hab. discriminate Hab.
Qed.

End Exactness.

(** ** C6: adding to the cart *)

Section CartAdd.
Import Examples.

Lemma find_findIndex {A : Type} (f : A → bool) (l : list A) :
  List.find f l = i ← findIndex f l; l !! i.
Proof.
  induction l as [|x l IH]; simpl; [done|].
  destruct (f x); [done|]. rewrite IH.
  by destruct (findIndex f l).
Qed.

Lemma findIndex_Some {A : Type} (f : A → bool) (l : list A) i :
  findIndex f l = Some i → ∃ x, l !! i = Some x ∧ f x = true.
Proof.
  revert i. induction l as [|x l IH]; intros i H; simpl in H; [done|].
  destruct (f x) eqn:Hf.
  - injection H as <-. by exists x.
  - destruct (findIndex f l) as [j|]; [|done].
    injection H as <-. by apply IH.
Qed.

Lemma findIndex_insert {A : Type} (f : A → bool) (l : list A) i y :
  findIndex f l = Some i → f y = true → findIndex f (<[i:=y]> l) = Some i.
Proof.
  revert i. induction l as [|x l IH]; intros i H Hy; simpl in H; [done|].
  destruct (f x) eqn:Hf.
  - injection H as <-. simpl. by rewrite Hy.
  - destruct (findIndex f l) as [j|] eqn:Hj; [|done].
    injection H as <-. simpl. rewrite Hf. by rewrite (IH j).
Qed.

Lemma findIndex_snoc {A : Type} (f : A → bool) (l : list A) y :
  findIndex f l = None → f y = true →
  findIndex f (l ++ [y]) = Some (length l).
Proof.
  intros H Hy. induction l as [|x l IH]; simpl in *; [by rewrite Hy|].
  destruct (f x); [done|].
  destruct (findIndex f l); [done|]. by rewrite IH.
Qed.

Lemma alter_lookup_insert {A : Type} (f : A → A) (l : list A) i x :
  l !! i = Some x → alter f i l = <[i := f x]> l.
Proof.
  revert i. induction l as [|y l IH]; intros [|i] H; simpl in *; try done.
  - by injection H as ->.
  - f_equal. by apply IH.
Qed.

(** C6, as the code has it. Adding a product the cart already holds adds
    the quantity to that line and leaves the line's price snapshot as it
    was; no line is added. Adding a product the cart does not hold twice
    gives one new line, with the sum of the two quantities and the price
    of the first call. *)
Theorem addItem_additive c productId productData q :
  (∀ item, Cart.getItem c productId = Some item →
     ∃ i, Cart.items c !! i = Some item
       ∧ Cart.items (Cart.addItem c productId productData q)
         = <[i := Cart.mkItem productId (Cart.quantity item + q)
                              (Cart.price item)]> (Cart.items c)
       ∧ Cart.getItem (Cart.addItem c productId productData q) productId
         = Some (Cart.mkItem productId (Cart.quantity item + q)
                             (Cart.price item)))
  ∧ (∀ productData' q', Cart.getItem c productId = None →
       Cart.items (Cart.addItem (Cart.addItem c productId productData q)
                                productId productData' q')
       = (Cart.items c
          ++ [Cart.mkItem productId (q + q') (Product.price productData)])%list).
Proof.
  split.
  - intros item H. unfold Cart.getItem in H. rewrite find_findIndex in H.
    destruct (findIndex _ _) as [i|] eqn:Hi; simpl in H; [|done].
    destruct (findIndex_Some _ _ _ Hi) as (x & Hx & Hfor).
    assert (x = item) as -> by congruence.
    unfold Cart.isFor in Hfor. apply bool_decide_eq_true in Hfor.
    assert (Hnew : Cart.addQuantity q item
                   = Cart.mkItem productId (Cart.quantity item + q)
                                 (Cart.price item)).
    { unfold Cart.addQuantity. by rewrite Hfor. }
    assert (Hitems : Cart.items (Cart.addItem c productId productData q)
                     = <[i := Cart.mkItem productId (Cart.quantity item + q)
                                          (Cart.price item)]> (Cart.items c)).
    { unfold Cart.addItem. rewrite Hi. simpl.
      by rewrite (alter_lookup_insert _ _ _ _ Hx), Hnew. }
    exists i. split; [done|]. split; [done|].
    unfold Cart.getItem. rewrite find_findIndex, Hitems.
    rewrite (findIndex_insert _ _ _ _ Hi).
    + simpl. apply list_lookup_insert_eq. by eapply lookup_lt_Some.
    + unfold Cart.isFor. by apply bool_decide_eq_true.
  - intros productData' q' H. unfold Cart.getItem in H.
    rewrite find_findIndex in H.
    destruct (findIndex _ (Cart.items c)) as [i|] eqn:Hi; simpl in H.
    { destruct (findIndex_Some _ _ _ Hi) as (x & Hx & _). congruence. }
    unfold Cart.addItem at 2. rewrite Hi.
    unfold Cart.addItem. simpl.
    rewrite findIndex_snoc; [|done|].
    + rewrite <- (Nat.add_0_r (length (Cart.items c))).
      by rewrite alter_app_r.
    + unfold Cart.isFor. by apply bool_decide_eq_true.
Qed.

(** Two calls with quantities 2 and 3 give one line of quantity 5. *)
Lemma addItem_additive_example :
  Cart.items (Cart.addItem (Cart.addItem emptyCart productA atTen 2)
                           productA atTwelve 3)
  = [Cart.mkItem productA 5 10%float].
Proof.
  exact (proj2 (addItem_additive emptyCart productA atTen 2)
               atTwelve 3 eq_refl).
Defined.

(** Against C6 as stated: after the product is repriced, adding it again
    leaves the old price on the line. *)
Lemma addItem_price_not_refreshed :
  ∃ item,
    Cart.getItem (Cart.addItem (Cart.addItem emptyCart productA atTen 2)
                               productA atTwelve 3) productA = Some item
    ∧ Cart.quantity item = 5
    ∧ Cart.price item ≠ Product.price atTwelve.
Proof.
  eexists. split; [reflexivity|]. split; [reflexivity|].
  simpl. intros H. discriminate H.
Qed.

Lemma findIndex_None {A : Type} (f : A → bool) (l : list A) :
  findIndex f l = None → ∀ x, x ∈ l → f x = false.
Proof.
  induction l as [|y l IH]; simpl; intros H x Hx.
  - by apply elem_of_nil in Hx.
  - destruct (f y) eqn:Hy; [done|].
    destruct (findIndex f l); [done|].
    apply elem_of_cons in Hx as [->|Hx]; [done|]. by apply IH.
Qed.

Lemma product_addQuantity q (l : list Cart.Item) : ∀ i : nat,
  Cart.product <$> alter (Cart.addQuantity q) i l = Cart.product <$> l.
Proof.
  induction l as [|x l IH]; intros [|i]; simpl; try done.
  f_equal. apply IH.
Qed.

(** X2. [addItem] never gives a cart two lines for one product. *)
Theorem addItem_keeps_lines_distinct c productId productData q :
  NoDup (Cart.product <$> Cart.items c) →
  NoDup (Cart.product <$> Cart.items (Cart.addItem c productId productData q)).
Proof.
  intros Hnd. unfold Cart.addItem.
  destruct (findIndex _ _) as [i|] eqn:Hi; simpl.
  - by rewrite product_addQuantity.
  - rewrite fmap_app. apply NoDup_app. split; [done|]. split.
    + intros k Hk [=]%list_elem_of_singleton. subst k.
      apply list_elem_of_fmap in Hk as (x & Hx & Hin).
      pose proof (findIndex_None _ _ Hi x Hin) as Hf.
      unfold Cart.isFor in Hf. by apply bool_decide_eq_false in Hf.
    + apply NoDup_singleton.
Qed.

Lemma addItem_keeps_lines_distinct_example :
  NoDup (Cart.product
           <$> Cart.items (Cart.addItem (Cart.addItem emptyCart productA atTen 2)
                                        productA atTwelve 3)).
Proof.
  apply addItem_keeps_lines_distinct, addItem_keeps_lines_distinct.
  apply NoDup_nil_2.
Defined.

End CartAdd.

(** ** Inventory *)

Section Inventory.
Import OrderController.

Lemma incStock_comm i a j b (ps : gmap ObjectId Product.t) :
  Product.incStock i a (Product.incStock j b ps)
  = Product.incStock j b (Product.incStock i a ps).
Proof.
  apply map_eq. intros k. unfold Product.incStock.
  rewrite !lookup_alter.
  repeat case_decide; subst; try done.
  destruct (ps !! k) as [p|]; simpl; [|done].
  unfold Product.setStock. simpl. do 2 f_equal. lia.
Qed.

Lemma incStock_cancel i d (ps : gmap ObjectId Product.t) :
  Product.incStock i d (Product.incStock i (- d) ps) = ps.
Proof.
  apply map_eq. intros k. unfold Product.incStock.
  rewrite !lookup_alter.
  repeat case_decide; subst; try done.
  destruct (ps !! k) as [[n p s a]|]; simpl; [|done].
  unfold Product.setStock. simpl. do 2 f_equal. lia.
Qed.

Lemma incStock_reduceStocks i d l : ∀ ps,
  Product.incStock i d (reduceStocks l ps)
  = reduceStocks l (Product.incStock i d ps).
Proof.
  induction l as [|x l IH]; intros ps; simpl; [done|].
  unfold reduceStocks in *. simpl. rewrite IH. by rewrite incStock_comm.
Qed.

Lemma restoreStocks_reduceStocks l : ∀ ps,
  restoreStocks l (reduceStocks l ps) = ps.
Proof.
  induction l as [|x l IH]; intros ps; [done|].
  unfold restoreStocks. simpl. fold (restoreStocks l).
  change (fold_left _ (x :: l) ps) with
    (reduceStocks l
       (Product.incStock (Order.product x) (- Order.quantity x) ps)).
  rewrite incStock_reduceStocks, incStock_cancel. apply IH.
Qed.

Lemma restoreStocks_fixSubtotal l : ∀ ps,
  restoreStocks (Order.fixSubtotal <$> l) ps = restoreStocks l ps.
Proof.
  induction l as [|x l IH]; intros ps; [done|].
  unfold restoreStocks in *. simpl. apply IH.
Qed.

Lemma restoreStocks_lookup l : ∀ ps k,
  restoreStocks l ps !! k
  = (λ p, Product.setStock p (Product.stock p + orderedQuantity k l))
    <$> ps !! k.
Proof.
  induction l as [|x l IH]; intros ps k.
  - simpl. destruct (ps !! k) as [[n p s a]|]; simpl; [|done].
    unfold Product.setStock. simpl. do 2 f_equal. lia.
  - unfold restoreStocks. simpl. fold (restoreStocks l). rewrite IH.
    unfold Product.incStock. rewrite lookup_alter.
    case_decide as Hk; case_bool_decide; try done; subst.
    destruct (ps !! Order.product x) as [[n p s a]|]; simpl; [|done].
    unfold Product.setStock. simpl. do 2 f_equal. lia.
Qed.

End Inventory.

(** ** C5: cancelling a placed order *)

Section Cancellation.
Import OrderController Examples.

(** C5, on the code. Alice asks for the order of her cart, two of A
    against a stock of 10: [Order.create] refuses the order data, which
    carry no order number, so no order is stored, the stock of A stays at
    10 and there is nothing to cancel. On a database that holds such an
    order, with 8 of A left, the cancellation by Alice, its owner, is
    refused by the access test, and the cancellation by an admin restores
    the 10 and stores the order as cancelled. *)
Theorem placed_order_is_not_there_to_cancel :
  placeOrder now rnd alice body shop
  = (shop, Err (schemaError "orderNumber"))
  ∧ stockOf shop productA = Some 10
  ∧ orders shop = []
  ∧ cancelOrder now rnd aliceHerself 0 None shop
    = (shop, Err (createNotFoundError "Order"))
  ∧ Order.user aliceOrder = id aliceHerself
  ∧ stockOf placed productA = Some 8
  ∧ cancelOrder now rnd aliceHerself 0 None placed
    = (placed, Err (mkAppError AccessDeniedCancel 403 "AuthorizationError"))
  ∧ ∃ db2 o',
      cancelOrder now rnd theAdmin 0 None placed = (db2, Ok o')
      ∧ stockOf db2 productA = Some 10
      ∧ statusOf db2 0 = Some Order.cancelled.
Proof.
  split; [apply placeOrder_refused|].
  do 6 (split; [reflexivity|]).
  eexists _, _. split; [reflexivity|]. split; reflexivity.
Qed.

End Cancellation.

(** ** C10 and C3: status changes *)

Section StatusChanges.
Import OrderController Examples.

Lemma statusOfString_nonempty status s :
  Order.statusOfString status = Some s → String.eqb status "" = false.
Proof.
  intros H. destruct (String.eqb status "") eqn:E; [|done].
  apply String.eqb_eq in E. subst. discriminate H.
Qed.

Lemma updateStatus_Ok now rnd o status s reason :
  Order.statusOfString status = Some s →
  ∃ o', Order.updateStatus now rnd o status reason = Ok o'
    ∧ Order.orderStatus o' = s.
Proof.
  intros H. unfold Order.updateStatus. rewrite H.
  eexists. split; [reflexivity|]. by destruct s.
Qed.

(** C10. Whatever the order, the target status and the outcome, the admin
    status update leaves the product collection and the carts as they were,
    and touches no order but the one it names. *)
Theorem updateOrderStatus_touches_one_order now rnd orderId status reason db :
  products (updateOrderStatus now rnd orderId status reason db).1 = products db
  ∧ carts (updateOrderStatus now rnd orderId status reason db).1 = carts db
  ∧ length (orders (updateOrderStatus now rnd orderId status reason db).1)
    = length (orders db)
  ∧ ∀ j, j ≠ orderId →
      orders (updateOrderStatus now rnd orderId status reason db).1 !! j
      = orders db !! j.
Proof.
  unfold updateOrderStatus.
  destruct (String.eqb status ""); [done|].
  destruct (orders db !! orderId) as [order|]; [|done].
  destruct (Order.updateStatus now rnd order status reason) as [order'|e];
    [|done].
  simpl. repeat split.
  - apply length_insert.
  - intros j Hj. by apply list_lookup_insert_ne.
Qed.

(** An admin marks Alice's placed order cancelled: the status changes and
    the stock of A stays at 8. *)
Lemma updateOrderStatus_touches_one_order_example :
  statusOf (updateOrderStatus now rnd 0 "cancelled" None placed).1 0
  = Some Order.cancelled
  ∧ stockOf placed productA = Some 8
  ∧ stockOf (updateOrderStatus now rnd 0 "cancelled" None placed).1 productA
    = Some 8.
Proof.
  split; [reflexivity|]. split; [reflexivity|].
  unfold stockOf.
  rewrite (proj1 (updateOrderStatus_touches_one_order
                    now rnd 0 "cancelled" None placed)).
  reflexivity.
Defined.

(** C3, as the code has it. The status update applies no transition rule:
    it stores any of the six statuses, whatever the current one, and leaves
    the stock alone. Only the cancel operation is guarded: on an order that
    is neither pending nor confirmed it fails and leaves the database as it
    was, with a ValidationError when an admin asks, and with the
    AuthorizationError of the access test when anyone else does. *)
Theorem status_is_unguarded_cancel_is_guarded now rnd db orderId o :
  orders db !! orderId = Some o →
  (∀ status s reason,
     Order.statusOfString status = Some s →
     ∃ o', updateOrderStatus now rnd orderId status reason db
           = (saveOrder db orderId o', Ok o')
       ∧ Order.orderStatus o' = s
       ∧ statusOf (saveOrder db orderId o') orderId = Some s
       ∧ products (saveOrder db orderId o') = products db)
  ∧ (∀ who reason,
       Order.canBeCancelled o = false →
       cancelOrder now rnd who orderId reason db
       = (db, Err match role who with
                  | admin => mkAppError CannotBeCancelled 400 "ValidationError"
                  | user => mkAppError AccessDeniedCancel 403
                                       "AuthorizationError"
                  end)).
Proof.
  intros Ho. split.
  - intros status s reason Hs.
    destruct (updateStatus_Ok now rnd o status s reason Hs) as (o' & Hu & Hst).
    exists o'. unfold updateOrderStatus.
    rewrite (statusOfString_nonempty _ _ Hs), Ho, Hu.
    split; [done|]. split; [done|]. split; [|done].
    unfold statusOf. simpl.
    rewrite list_lookup_insert_eq; [by rewrite <- Hst|].
    by eapply lookup_lt_Some.
  - intros who reason Hc. unfold cancelOrder. rewrite Ho.
    destruct (role who); simpl; [done|]. by rewrite Hc.
Qed.

(** Alice's order, once shipped, cannot be cancelled by an admin, and the
    database stays as it is; the status update takes it from delivered back
    to pending. *)
Lemma status_is_unguarded_cancel_is_guarded_example :
  cancelOrder now rnd theAdmin 0 None shippedOrder
  = (shippedOrder, Err (mkAppError CannotBeCancelled 400 "ValidationError"))
  ∧ ∃ o', updateOrderStatus now rnd 0 "pending" None deliveredOrder
          = (saveOrder deliveredOrder 0 o', Ok o')
      ∧ Order.orderStatus o' = Order.pending.
Proof.
  destruct (status_is_unguarded_cancel_is_guarded now rnd shippedOrder 0%nat _
              eq_refl) as [_ Hcancel].
  destruct (status_is_unguarded_cancel_is_guarded now rnd deliveredOrder 0%nat
              _ eq_refl) as [Hupdate _].
  split.
  - exact (Hcancel theAdmin None eq_refl).
  - destruct (Hupdate "pending" Order.pending None eq_refl)
      as (o' & Hu & Hs & _).
    exists o'. by split.
Defined.

(** Against C3 as stated: a delivered order is taken back to pending, a
    shipped order is cancelled through the status update, and the cancel
    operation, asked by an admin, refuses a shipped order with a
    ValidationError. *)
Lemma delivered_order_leaves_delivered :
  statusOf deliveredOrder 0 = Some Order.delivered
  ∧ isOk (updateOrderStatus now rnd 0 "pending" None deliveredOrder).2 = true
  ∧ statusOf (updateOrderStatus now rnd 0 "pending" None deliveredOrder).1 0
    = Some Order.pending
  ∧ statusOf shippedOrder 0 = Some Order.shipped
  ∧ statusOf (updateOrderStatus now rnd 0 "cancelled" None shippedOrder).1 0
    = Some Order.cancelled
  ∧ ∃ e, (cancelOrder now rnd theAdmin 0 None shippedOrder).2 = Err e
      ∧ type e = "ValidationError"
      ∧ type e ≠ "InvalidTransitionError".
Proof.
  repeat (split; [vm_compute; reflexivity|]).
  eexists. split; [vm_compute; reflexivity|].
  split; [reflexivity|]. simpl. discriminate.
Qed.

End StatusChanges.

(** ** C2: a cart line that fails validation *)

Section LineFailure.
Import OrderController Examples.

(** Some line fails exactly when there is a first line that fails. *)
Lemma first_failure {A : Type} (f : A → bool) (l : list A) :
  forallb f l = false →
  ∃ pre x post, l = (pre ++ x :: post)%list
    ∧ forallb f pre = true ∧ f x = false.
Proof.
  induction l as [|y l IH]; simpl; [done|]. intros H.
  destruct (f y) eqn:Hy.
  - destruct (IH H) as (pre & x & post & -> & Hpre & Hx).
    exists (y :: pre), x, post. simpl. by rewrite Hy, Hpre.
  - by exists [], y, l.
Qed.

Lemma validateItems_first_failure pre x post : ∀ acc s,
  forallb lineOk pre = true → lineOk x = false →
  ∃ e, validateItems (pre ++ x :: post) acc s = Err e
    ∧ (∀ p, x.2 = Some p → Product.isActive p = true →
         e = mkAppError (InsufficientStock (Product.name p) (Product.stock p))
                        400 "StockError"
         ∧ Product.stock p < Cart.quantity x.1)
    ∧ ((x.2 = None ∨ ∃ p, x.2 = Some p ∧ Product.isActive p = false) →
       type e = "ValidationError").
Proof.
  induction pre as [|[cartItem' [p'|]] pre IH]; intros acc s Hpre Hx.
  - destruct x as [cartItem [p|]]; unfold lineOk in Hx; simpl in *.
    + destruct (Product.isActive p) eqn:Ha; simpl in *.
      * apply Z.leb_gt in Hx. pose proof Hx as Hlt.
        apply Z.ltb_lt in Hx. rewrite Hx.
        eexists. split; [reflexivity|]. split.
        -- intros ? [= <-] _. by split.
        -- intros [?|(? & [= <-] & ?)]; congruence.
      * eexists. split; [reflexivity|]. split; [|done].
        intros ? [= <-] ?. congruence.
    + eexists. split; [reflexivity|]. split; [|done]. by intros ? [=].
  - simpl in Hpre. unfold lineOk in Hpre at 1. simpl in Hpre.
    apply andb_prop in Hpre as [Hy Hpre]. apply andb_prop in Hy as [Ha Hs].
    simpl. rewrite Ha. simpl. apply Z.leb_le in Hs.
    destruct (Z.ltb_spec (Product.stock p') (Cart.quantity cartItem'));
      [lia|].
    by apply IH.
  - discriminate Hpre.
Qed.

(** C2, as the code has it. When a line of the cart fails validation, the
    placement fails with the error of the first such line and the database
    is left as it was: no order, no stock change. The error is a StockError
    carrying the product's stock when the product is there and active but
    short of the requested quantity, and a ValidationError when the product
    is missing or inactive. *)
Theorem placeOrder_line_failure now rnd userId body db address cart pre x post :
  validateBody body = Ok address →
  carts db !! userId = Some cart →
  populate db <$> Cart.items cart = (pre ++ x :: post)%list →
  forallb lineOk pre = true →
  lineOk x = false →
  ∃ e, placeOrder now rnd userId body db = (db, Err e)
    ∧ (∀ p, x.2 = Some p → Product.isActive p = true →
         e = mkAppError (InsufficientStock (Product.name p) (Product.stock p))
                        400 "StockError"
         ∧ Product.stock p < Cart.quantity x.1)
    ∧ ((x.2 = None ∨ ∃ p, x.2 = Some p ∧ Product.isActive p = false) →
       type e = "ValidationError").
Proof.
  intros Hb Hc Hitems Hpre Hx.
  destruct (validateItems_first_failure pre x post [] 0%float Hpre Hx)
    as (e & He & Hstock & Hgone).
  exists e. split; [|by split].
  unfold placeOrder, findByUser. rewrite Hb, Hc. simpl.
  assert (Cart.isEmpty cart = false) as ->.
  { unfold Cart.isEmpty. destruct (Cart.items cart); [|done].
    by destruct pre. }
  by rewrite Hitems, He.
Qed.

(** Stock 3 and a cart asking for 5: a StockError that reports 3, and the
    database unchanged. *)
Lemma placeOrder_line_failure_example :
  placeOrder now rnd alice body scarce
  = (scarce, Err (mkAppError (InsufficientStock "A" 3) 400 "StockError"))
  ∧ stockOf scarce productA = Some 3
  ∧ orders scarce = [].
Proof.
  destruct (placeOrder_line_failure now rnd alice body scarce address _
              [] (_, Some (Product.mk "A" 10%float 3 true)) []
              eq_refl eq_refl eq_refl eq_refl eq_refl)
    as (e & He & Hstock & _).
  destruct (Hstock _ eq_refl eq_refl) as [-> _].
  split; [exact He|]. by split.
Defined.

(** Against C2 as stated: a cart line whose product is no longer active
    fails the placement with a ValidationError, not a StockError. *)
Lemma inactive_product_is_no_StockError :
  ∃ e, placeOrder now rnd alice body withdrawn = (withdrawn, Err e)
    ∧ type e = "ValidationError"
    ∧ type e ≠ "StockError".
Proof.
  eexists. split; [reflexivity|]. split; [reflexivity|].
  simpl. discriminate.
Qed.

End LineFailure.

(** ** C9: reading the cart *)

Section ReadingTheCart.
Import CartController Examples.

Lemma filter_populate db l :
  fst <$> List.filter isActiveItem (populate db <$> l)
  = List.filter (available db) l.
Proof.
  induction l as [|item l IH]; [done|]. simpl.
  replace (isActiveItem (populate db item)) with (available db item).
  - destruct (available db item); simpl; [f_equal|]; exact IH.
  - unfold available, isActiveItem, populate. simpl.
    by destruct (products db !! Cart.product item).
Qed.

Lemma length_filter_populate db l :
  length (List.filter isActiveItem (populate db <$> l))
  = length (List.filter (available db) l).
Proof. by rewrite <- filter_populate, length_fmap. Qed.

Lemma filter_length_le {A : Type} (f : A → bool) (l : list A) :
  (length (List.filter f l) ≤ length l)%nat.
Proof.
  induction l as [|x l IH]; simpl; [done|]. destruct (f x); simpl; lia.
Qed.

Lemma filter_all {A : Type} (f : A → bool) (l : list A) :
  length (List.filter f l) = length l →
  List.filter f l = l ∧ forallb f l = true.
Proof.
  induction l as [|x l IH]; simpl; [done|]. destruct (f x); simpl.
  - intros [= H]. destruct (IH H) as [-> ->]. done.
  - intros H. pose proof (filter_length_le f l). lia.
Qed.

Lemma available_product db item :
  available db item = true →
  ∃ p, products db !! Cart.product item = Some p
    ∧ Product.isActive p = true ∧ 0 < Product.stock p.
Proof.
  unfold available.
  destruct (products db !! Cart.product item) as [p|]; [|done].
  intros H. apply andb_prop in H as [Ha Hs]. apply Z.ltb_lt in Hs.
  by exists p.
Qed.

Lemma product_available db item p :
  products db !! Cart.product item = Some p →
  Product.isActive p = true → 0 < Product.stock p →
  available db item = true.
Proof.
  intros Hp Ha Hs. unfold available. rewrite Hp, Ha. by apply Z.ltb_lt.
Qed.

(** C9. [getCart] answers with the stored items, in their order, whose
    product exists, is active and has stock above zero: a stored item is
    kept exactly when its product is such, and dropped otherwise. The cart
    it answers with is the cart stored for the user afterwards. Products,
    orders and the carts of other users are untouched. When some stored
    item is dropped, the stored cart changes, and its totals are recomputed
    from the items that stay. *)
Theorem getCart_prunes userId db :
  ∃ cart',
    (getCart userId db).2 = Ok cart'
    ∧ Cart.items cart' = List.filter (available db) (storedItems db userId)
    ∧ (∀ item, In item (storedItems db userId) →
         In item (Cart.items cart')
         ↔ ∃ p, products db !! Cart.product item = Some p
             ∧ Product.isActive p = true ∧ 0 < Product.stock p)
    ∧ carts (getCart userId db).1 !! userId = Some cart'
    ∧ (∀ u, u ≠ userId →
         carts (getCart userId db).1 !! u = carts db !! u)
    ∧ products (getCart userId db).1 = products db
    ∧ orders (getCart userId db).1 = orders db
    ∧ (forallb (available db) (storedItems db userId) = false →
       carts (getCart userId db).1 ≠ carts db
       ∧ Cart.totalItems cart' = Cart.sumQuantity (Cart.items cart')
       ∧ Cart.totalAmount cart' = Cart.sumAmount (Cart.items cart')).
Proof.
  assert (Hin : ∀ l item, In item l →
            In item (List.filter (available db) l)
            ↔ ∃ p, products db !! Cart.product item = Some p
                ∧ Product.isActive p = true ∧ 0 < Product.stock p).
  { intros l item Hl. rewrite filter_In. split.
    - intros [_ H]. by apply available_product.
    - intros (p & Hp & Ha & Hs). split; [done|].
      by eapply product_available. }
  unfold getCart, findByUser, storedItems.
  destruct (carts db !! userId) as [c|] eqn:Hc; simpl.
  - destruct (length (List.filter isActiveItem (populate db <$> Cart.items c))
              =? length (Cart.items c))%nat eqn:Hlen; simpl.
    + apply Nat.eqb_eq in Hlen. rewrite length_filter_populate in Hlen.
      apply filter_all in Hlen as [Hfilter Hall].
      exists c. split; [done|]. split; [by rewrite Hfilter|]. split.
      { intros item H. rewrite <- (Hin (Cart.items c) item H).
        by rewrite Hfilter. }
      rewrite Hall. by repeat split.
    + apply Nat.eqb_neq in Hlen. rewrite length_filter_populate in Hlen.
      eexists. split; [reflexivity|]. simpl. rewrite filter_populate.
      split; [done|]. split; [apply Hin|].
      repeat split; try done.
      * apply lookup_insert_eq.
      * intros u Hu. by apply lookup_insert_ne.
      * intros Heq. apply (f_equal (λ m, m !! userId)) in Heq.
        rewrite lookup_insert_eq, Hc in Heq. injection Heq as Heq.
        apply (f_equal Cart.items) in Heq. simpl in Heq.
        by rewrite Heq in Hlen.
  - eexists. split; [reflexivity|]. simpl.
    repeat split; try done.
    + apply lookup_insert_eq.
    + intros u Hu. by apply lookup_insert_ne.
Qed.

(** Alice's cart holds two of A, on sale, and one of B, withdrawn: reading
    the cart keeps the line of A and drops the line of B, counts 2 items
    for $20, and rewrites the stored cart. *)
Lemma getCart_prunes_example :
  ∃ cart',
    (getCart alice halfGone).2 = Ok cart'
    ∧ storedItems halfGone alice
      = [Cart.mkItem productA 2 10%float; Cart.mkItem productB 1 5%float]
    ∧ Cart.items cart' = [Cart.mkItem productA 2 10%float]
    ∧ Cart.totalItems cart' = 2
    ∧ Cart.totalAmount cart' = 20%float
    ∧ carts (getCart alice halfGone).1 !! alice = Some cart'
    ∧ carts (getCart alice halfGone).1 ≠ carts halfGone.
Proof.
  destruct (getCart_prunes alice halfGone)
    as (cart' & Hr & Hitems & _ & Hstored & _ & _ & _ & Hprune).
  destruct (Hprune eq_refl) as (Hneq & Hti & Hta).
  exists cart'. split; [exact Hr|]. split; [reflexivity|].
  split; [by rewrite Hitems|].
  split; [by rewrite Hti, Hitems|].
  split; [by rewrite Hta, Hitems|].
  split; [exact Hstored|exact Hneq].
Defined.

End ReadingTheCart.

(** ** C8: two placements at the same time *)

Section TwoAtOnce.
Import OrderController Concurrent Examples.

Lemma start_notPlaced userId body : notPlaced (start userId body).
Proof. unfold start. by destruct (validateBody body). Qed.

(** A request that has not got past [Order.create] writes nothing at its
    next step, and does not get past it. *)
Lemma step_notPlaced now rnd db t :
  notPlaced t →
  (step now rnd db t).1 = db ∧ notPlaced (step now rnd db t).2.
Proof.
  destruct t as [userId body address|userId body address cart
                |userId cart orderItems orderData| | | |[order|e]];
    simpl; try done.
  - intros _. by destruct (carts db !! userId).
  - intros _. destruct (Cart.isEmpty cart); [done|].
    by destruct (validateItems _ _ _) as [[orderItems sub]|].
  - intros H. by rewrite createOrder_refuses.
Qed.

Lemma run_notPlaced now rnd db t n :
  notPlaced t →
  (run n now rnd db t).1 = db ∧ notPlaced (run n now rnd db t).2.
Proof.
  revert t. induction n as [|n IH]; intros t H; [done|]. simpl.
  destruct (step_notPlaced now rnd db t H) as [Hdb Ht].
  destruct (step now rnd db t) as [db1 t1]. simpl in *. subst db1.
  by apply IH.
Qed.

Lemma run_S now rnd db t n :
  notPlaced t →
  (run (S n) now rnd db t).2 = (run n now rnd db (step now rnd db t).2).2.
Proof.
  intros H. simpl. destruct (step_notPlaced now rnd db t H) as [Hdb _].
  destruct (step now rnd db t) as [db1 t1]. simpl in *. by subst db1.
Qed.

Lemma run_Done n now rnd db r : run n now rnd db (Done r) = (db, Done r).
Proof. induction n as [|n IH]; [done|]. exact IH. Qed.

(** Whatever the schedule, two such requests leave the database as it
    was, and each is where it would be after its own steps alone. *)
Lemma interleave_notPlaced now rnd1 rnd2 db schedule : ∀ t1 t2,
  notPlaced t1 → notPlaced t2 →
  interleave schedule now rnd1 rnd2 db t1 t2
  = (db,
     (run (turns true schedule) now rnd1 db t1).2,
     (run (turns false schedule) now rnd2 db t2).2).
Proof.
  induction schedule as [|[|] schedule IH]; intros t1 t2 H1 H2; [done| |].
  - change (turns true (true :: schedule)) with (S (turns true schedule)).
    change (turns false (true :: schedule)) with (turns false schedule).
    rewrite run_S by done. simpl interleave.
    destruct (step_notPlaced now rnd1 db t1 H1) as [Hdb Ht].
    destruct (step now rnd1 db t1) as [db1 t1']. simpl in *. subst db1.
    by apply IH.
  - change (turns true (false :: schedule)) with (turns true schedule).
    change (turns false (false :: schedule)) with (S (turns false schedule)).
    rewrite run_S by done. simpl interleave.
    destruct (step_notPlaced now rnd2 db t2 H2) as [Hdb Ht].
    destruct (step now rnd2 db t2) as [db1 t2']. simpl in *. subst db1.
    by apply IH.
Qed.

Lemma notPlaced_not_succeeded t : notPlaced t → succeeded t = false.
Proof. by destruct t as [| | | | | |[order|e]]. Qed.

(** The request of a customer with one of A in the cart, on the database
    with one A left, after any number of its steps. *)
Lemma lastOne_steps rnd userId n :
  userId = alice ∨ userId = bob →
  failedWith "StockError"
    (run n now rnd lastOne (start userId body)).2 = false
  ∧ ((3 ≤ n)%nat →
     (run n now rnd lastOne (start userId body)).2
     = Done (Err (schemaError "orderNumber"))).
Proof.
  intros [-> | ->];
    (destruct n as [|[|[|n]]]; [split; [done|lia]..|]);
    change (run (S (S (S n))) now rnd lastOne (start _ body))
      with (run n now rnd lastOne (Done (Err (schemaError "orderNumber"))));
    by rewrite run_Done.
Qed.

(** C8, on the code. Two placements at the same time, whatever the
    database, the customers, the requests and the schedule of their
    database operations, write nothing and neither succeeds: each stops at
    its checks or at [Order.create], which refuses order data without an
    order number. On the database with one A left, of which Alice and Bob
    each have one in the cart, neither fails with a StockError, and once
    each has had its three turns both have failed with the
    ValidationError of [Order.create]; the stock of A is still 1. *)
Theorem concurrent_orders_both_refused :
  (∀ schedule rnd1 rnd2 db userId1 body1 userId2 body2, ∃ t1 t2,
     interleave schedule now rnd1 rnd2 db
       (start userId1 body1) (start userId2 body2) = (db, t1, t2)
     ∧ succeeded t1 = false ∧ succeeded t2 = false)
  ∧ (∀ schedule rnd1 rnd2, ∃ t1 t2,
       interleave schedule now rnd1 rnd2 lastOne
         (start alice body) (start bob body) = (lastOne, t1, t2)
       ∧ failedWith "StockError" t1 = false
       ∧ failedWith "StockError" t2 = false
       ∧ ((3 ≤ turns true schedule)%nat →
          (3 ≤ turns false schedule)%nat →
          t1 = Done (Err (schemaError "orderNumber"))
          ∧ t2 = Done (Err (schemaError "orderNumber"))))
  ∧ stockOf lastOne productA = Some 1
  ∧ interleave turnByTurn now 1 2 lastOne (start alice body) (start bob body)
    = (lastOne, Done (Err (schemaError "orderNumber")),
       Done (Err (schemaError "orderNumber")))
  ∧ interleave oneAfterTheOther now 1 2 lastOne
      (start alice body) (start bob body)
    = (lastOne, Done (Err (schemaError "orderNumber")),
       Done (Err (schemaError "orderNumber"))).
Proof.
  split; [|split; [|split; [done|split; reflexivity]]].
  - intros schedule rnd1 rnd2 db userId1 body1 userId2 body2.
    eexists _, _. split.
    + apply interleave_notPlaced; apply start_notPlaced.
    + split; apply notPlaced_not_succeeded;
        apply run_notPlaced, start_notPlaced.
  - intros schedule rnd1 rnd2. eexists _, _. split.
    + apply interleave_notPlaced; apply start_notPlaced.
    + destruct (lastOne_steps rnd1 alice
                  (turns true schedule) (or_introl eq_refl))
        as [Hs1 Hd1].
      destruct (lastOne_steps rnd2 bob
                  (turns false schedule) (or_intror eq_refl))
        as [Hs2 Hd2].
      split; [done|]. split; [done|]. intros H1 H2. split; auto.
Qed.

End TwoAtOnce.

(** * Further properties of the models and handlers *)

(** ** models/Cart.js: the lines of one cart *)

Section CartLines.

Lemma isFor_true id item : Cart.isFor id item = true ↔ Cart.product item = id.
Proof. unfold Cart.isFor. apply bool_decide_eq_true. Qed.

Lemma isFor_false id item : Cart.isFor id item = false ↔ Cart.product item ≠ id.
Proof. unfold Cart.isFor. apply bool_decide_eq_false. Qed.

Lemma isFor_other id id' item :
  id' ≠ id → Cart.isFor id item = true → Cart.isFor id' item = false.
Proof. rewrite isFor_true, isFor_false. congruence. Qed.

Lemma find_app_None {A : Type} (f : A → bool) (l k : list A) :
  List.find f l = None → List.find f (l ++ k) = List.find f k.
Proof.
  induction l as [|x l IH]; simpl; [done|]. by destruct (f x).
Qed.

Lemma find_app_Some {A : Type} (f : A → bool) (l k : list A) x :
  List.find f l = Some x → List.find f (l ++ k) = Some x.
Proof.
  induction l as [|y l IH]; simpl; [done|]. by destruct (f y).
Qed.

Lemma find_insert_other {A : Type} (f : A → bool) (l : list A) i x y :
  l !! i = Some x → f x = false → f y = false →
  List.find f (<[i:=y]> l) = List.find f l.
Proof.
  revert i. induction l as [|z l IH]; intros [|i] Hx Hfx Hfy; simpl in *;
    try done.
  - injection Hx as ->. by rewrite Hfx, Hfy.
  - destruct (f z); [done|]. by eapply IH.
Qed.

Lemma find_delete_other {A : Type} (f : A → bool) (l : list A) i x :
  l !! i = Some x → f x = false →
  List.find f (delete i l) = List.find f l.
Proof.
  revert i. induction l as [|z l IH]; intros [|i] Hx Hfx; simpl in *;
    try done.
  - injection Hx as ->. by rewrite Hfx.
  - destruct (f z); [done|]. by eapply IH.
Qed.

(** The items after [addItem]: the first line of the product with the
    quantity added, or a new last line. *)
Lemma addItem_items c productId productData q :
  (∃ i item, Cart.items c !! i = Some item
     ∧ findIndex (Cart.isFor productId) (Cart.items c) = Some i
     ∧ Cart.getItem c productId = Some item
     ∧ Cart.product item = productId
     ∧ Cart.items (Cart.addItem c productId productData q)
       = <[i := Cart.mkItem productId (Cart.quantity item + q)
                            (Cart.price item)]> (Cart.items c))
  ∨ (Cart.getItem c productId = None
     ∧ findIndex (Cart.isFor productId) (Cart.items c) = None
     ∧ Cart.items (Cart.addItem c productId productData q)
       = (Cart.items c
          ++ [Cart.mkItem productId q (Product.price productData)])%list).
Proof.
  unfold Cart.getItem, Cart.addItem. rewrite find_findIndex.
  destruct (findIndex _ _) as [i|] eqn:Hi; simpl.
  - left. destruct (findIndex_Some _ _ _ Hi) as (item & Hx & Hfor).
    apply isFor_true in Hfor.
    exists i, item. repeat split; try done.
    rewrite (alter_lookup_insert _ _ _ _ Hx).
    unfold Cart.addQuantity. by rewrite Hfor.
  - by right.
Qed.

Lemma getItem_addItem_same c productId productData q :
  Cart.getItem (Cart.addItem c productId productData q) productId
  = Some (match Cart.getItem c productId with
          | Some item =>
              Cart.mkItem productId (Cart.quantity item + q) (Cart.price item)
          | None => Cart.mkItem productId q (Product.price productData)
          end).
Proof.
  destruct (addItem_items c productId productData q)
    as [(i & item & Hx & Hi & -> & Hp & Hitems)|(-> & Hi & Hitems)];
    unfold Cart.getItem; rewrite Hitems.
  - rewrite find_findIndex, (findIndex_insert _ _ _ _ Hi).
    + simpl. apply list_lookup_insert_eq. by eapply lookup_lt_Some.
    + by apply isFor_true.
  - rewrite find_app_None.
    + simpl. by rewrite (proj2 (isFor_true productId _)).
    + rewrite find_findIndex, Hi. done.
Qed.

Lemma getItem_addItem_other c productId productData q other :
  other ≠ productId →
  Cart.getItem (Cart.addItem c productId productData q) other
  = Cart.getItem c other.
Proof.
  intros Hne.
  destruct (addItem_items c productId productData q)
    as [(i & item & Hx & Hi & _ & Hp & Hitems)|(_ & Hi & Hitems)];
    unfold Cart.getItem; rewrite Hitems.
  - apply (find_insert_other _ _ _ item); [done| |];
      apply isFor_false; simpl; congruence.
  - destruct (List.find (Cart.isFor other) (Cart.items c)) as [x|] eqn:Hf.
    + by apply find_app_Some.
    + rewrite find_app_None by done. simpl.
      by rewrite (proj2 (isFor_false other _)).
Qed.

(** X4. [addItem] and [getItem]: a product the cart did not hold is found
    afterwards with the quantity added and the product's price, and the
    lines of every other product are found as before. *)
Theorem addItem_getItem c productId productData q :
  (Cart.getItem c productId = None →
     Cart.getItem (Cart.addItem c productId productData q) productId
     = Some (Cart.mkItem productId q (Product.price productData)))
  ∧ (∀ other, other ≠ productId →
       Cart.getItem (Cart.addItem c productId productData q) other
       = Cart.getItem c other).
Proof.
  split.
  - intros H. by rewrite getItem_addItem_same, H.
  - intros other. apply getItem_addItem_other.
Qed.

Lemma filter_find_None {A : Type} (f : A → bool) (l : list A) :
  List.find f (List.filter (λ x, negb (f x)) l) = None.
Proof.
  induction l as [|x l IH]; simpl; [done|].
  destruct (f x) eqn:Hf; simpl; [done|]. by rewrite Hf.
Qed.

Lemma filter_find_other {A : Type} (f g : A → bool) (l : list A) :
  (∀ x, g x = true → f x = false) →
  List.find g (List.filter (λ x, negb (f x)) l) = List.find g l.
Proof.
  intros Hfg. induction l as [|x l IH]; simpl; [done|].
  destruct (f x) eqn:Hf; simpl.
  - destruct (g x) eqn:Hg; [|done]. apply Hfg in Hg. congruence.
  - by destruct (g x).
Qed.

Lemma filter_length_lt {A : Type} (f : A → bool) (l : list A) :
  (length (List.filter (λ x, negb (f x)) l) <? length l)%nat = true
  ↔ is_Some (List.find f l).
Proof.
  rewrite Nat.ltb_lt.
  induction l as [|x l IH]; simpl.
  - split; [lia|]. by intros [? [=]].
  - pose proof (filter_length_le (λ x, negb (f x)) l) as Hle.
    destruct (f x) eqn:Hf; simpl.
    + split; [eauto|]. intros _. lia.
    + rewrite <- IH. lia.
Qed.

Lemma filter_find_id {A : Type} (f : A → bool) (l : list A) :
  List.find f l = None → List.filter (λ x, negb (f x)) l = l.
Proof.
  induction l as [|x l IH]; simpl; [done|].
  destruct (f x) eqn:Hf; simpl; [done|]. intros H. by rewrite IH.
Qed.

(** X5. [removeItem] removes every line of the product, says whether there
    was one, and leaves the lines of the other products; removing a product
    right after adding it to a cart that did not hold it gives the items
    back. *)
Theorem removeItem_getItem c productId :
  Cart.getItem (Cart.removeItem c productId).1 productId = None
  ∧ ((Cart.removeItem c productId).2 = true
     ↔ is_Some (Cart.getItem c productId))
  ∧ (∀ other, other ≠ productId →
       Cart.getItem (Cart.removeItem c productId).1 other
       = Cart.getItem c other)
  ∧ (∀ productData q, Cart.getItem c productId = None →
       Cart.items (Cart.removeItem (Cart.addItem c productId productData q)
                                   productId).1
       = Cart.items c).
Proof.
  unfold Cart.removeItem, Cart.getItem. simpl.
  split; [apply filter_find_None|]. split; [|split].
  - apply filter_length_lt.
  - intros other Hne. apply filter_find_other.
    intros x Hx. eapply isFor_other; [|exact Hx]. done.
  - intros productData q Hnone.
    destruct (addItem_items c productId productData q)
      as [(i & item & _ & _ & Hget & _)|(_ & _ & ->)].
    + unfold Cart.getItem in Hget. congruence.
    + rewrite List.filter_app. simpl.
      rewrite (proj2 (isFor_true productId _)) by done. simpl.
      rewrite app_nil_r. by apply filter_find_id.
Qed.

Lemma removeItem_getItem_example :
  Cart.items
    (Cart.removeItem
       (Cart.addItem (Cart.mk [Cart.mkItem 2%nat 1 5%float] 1 5%float)
                     1%nat (Product.mk "A" 10%float 10 true) 2) 1%nat).1
  = [Cart.mkItem 2%nat 1 5%float].
Proof.
  apply (proj2 (proj2 (proj2 (removeItem_getItem
           (Cart.mk [Cart.mkItem 2%nat 1 5%float] 1 5%float) 1%nat)))).
  reflexivity.
Defined.

Lemma addItem_getItem_example :
  Cart.getItem
    (Cart.addItem (Cart.mk [Cart.mkItem 2%nat 1 5%float] 1 5%float)
                  1%nat (Product.mk "A" 10%float 10 true) 2) 1%nat
  = Some (Cart.mkItem 1%nat 2 10%float)
  ∧ Cart.getItem
      (Cart.addItem (Cart.mk [Cart.mkItem 2%nat 1 5%float] 1 5%float)
                    1%nat (Product.mk "A" 10%float 10 true) 2) 2%nat
    = Some (Cart.mkItem 2%nat 1 5%float).
Proof.
  destruct (addItem_getItem (Cart.mk [Cart.mkItem 2%nat 1 5%float] 1 5%float)
              1%nat (Product.mk "A" 10%float 10 true) 2) as [Hnew Hother].
  split; [exact (Hnew eq_refl)|].
  rewrite Hother; [reflexivity|discriminate].
Defined.

Lemma find_absent (l : list Cart.Item) id :
  id ∉ Cart.product <$> l → List.find (Cart.isFor id) l = None.
Proof.
  induction l as [|x l IH]; simpl; [done|]. intros H.
  apply not_elem_of_cons in H as [Hx Hl].
  rewrite (proj2 (isFor_false id x)) by done. by apply IH.
Qed.

Lemma find_delete_NoDup (l : list Cart.Item) i x :
  NoDup (Cart.product <$> l) → l !! i = Some x →
  List.find (Cart.isFor (Cart.product x)) (delete i l) = None.
Proof.
  revert i. induction l as [|z l IH]; intros [|i] Hnd Hx; simpl in *;
    try done; apply NoDup_cons in Hnd as [Hz Hnd].
  - injection Hx as ->. by apply find_absent.
  - assert (Cart.product z ≠ Cart.product x) as Hne.
    { intros Heq. apply Hz. rewrite Heq.
      apply list_elem_of_fmap. exists x. split; [done|].
      by eapply list_elem_of_lookup_2. }
    rewrite (proj2 (isFor_false _ z)) by done. by apply IH.
Qed.

(** X6. [updateItemQuantity]: on a product the cart does not hold it
    changes nothing and says so; otherwise it leaves the lines of the other
    products, and either sets the quantity of the product's first line,
    keeping its price, or, for a quantity of zero or less, deletes that one
    line, which removes the product when the lines are for distinct
    products. *)
Theorem updateItemQuantity_getItem c productId q :
  (Cart.getItem c productId = None →
     Cart.updateItemQuantity c productId q = (c, false))
  ∧ (∀ item, Cart.getItem c productId = Some item →
       (Cart.updateItemQuantity c productId q).2 = true
       ∧ (∀ other, other ≠ productId →
            Cart.getItem (Cart.updateItemQuantity c productId q).1 other
            = Cart.getItem c other)
       ∧ (0 < q →
            Cart.getItem (Cart.updateItemQuantity c productId q).1 productId
            = Some (Cart.mkItem productId q (Cart.price item))
            ∧ length (Cart.items (Cart.updateItemQuantity c productId q).1)
              = length (Cart.items c))
       ∧ (q ≤ 0 →
            S (length (Cart.items (Cart.updateItemQuantity c productId q).1))
            = length (Cart.items c)
            ∧ (NoDup (Cart.product <$> Cart.items c) →
               Cart.getItem (Cart.updateItemQuantity c productId q).1
                            productId = None))).
Proof.
  unfold Cart.getItem, Cart.updateItemQuantity. rewrite find_findIndex.
  destruct (findIndex _ _) as [i|] eqn:Hi; simpl.
  - destruct (findIndex_Some _ _ _ Hi) as (x & Hx' & Hfor).
    split; [congruence|]. intros item Hx.
    assert (x = item) as -> by congruence. clear Hx'.
    apply isFor_true in Hfor.
    destruct (Z.leb_spec q 0) as [Hq|Hq]; simpl.
    + split; [done|]. split; [|split; [lia|]].
      * intros other Hne. apply (find_delete_other _ _ _ item); [done|].
        apply isFor_false. congruence.
      * intros _. split.
        -- rewrite length_delete by eauto.
           apply lookup_lt_Some in Hx. lia.
        -- intros Hnd. rewrite <- Hfor. by apply find_delete_NoDup.
    + rewrite (alter_lookup_insert _ _ _ _ Hx).
      unfold Cart.setQuantity. rewrite Hfor.
      split; [done|]. split; [|split; [|lia]].
      * intros other Hne. apply (find_insert_other _ _ _ item); [done| |];
          apply isFor_false; simpl; congruence.
      * intros _. split; [|apply length_insert].
        rewrite find_findIndex, (findIndex_insert _ _ _ _ Hi).
        -- simpl. apply list_lookup_insert_eq. by eapply lookup_lt_Some.
        -- by apply isFor_true.
  - split; [done|]. by intros item [=].
Qed.

Lemma updateItemQuantity_getItem_example :
  Cart.getItem
    (Cart.updateItemQuantity
       (Cart.mk [Cart.mkItem 1%nat 2 10%float; Cart.mkItem 2%nat 1 5%float]
                3 25%float) 1%nat 7).1 1%nat
  = Some (Cart.mkItem 1%nat 7 10%float)
  ∧ Cart.getItem
      (Cart.updateItemQuantity
         (Cart.mk [Cart.mkItem 1%nat 2 10%float; Cart.mkItem 2%nat 1 5%float]
                  3 25%float) 1%nat 0).1 1%nat
    = None.
Proof.
  destruct (updateItemQuantity_getItem
              (Cart.mk [Cart.mkItem 1%nat 2 10%float;
                        Cart.mkItem 2%nat 1 5%float] 3 25%float) 1%nat 7)
    as [_ Hset].
  destruct (updateItemQuantity_getItem
              (Cart.mk [Cart.mkItem 1%nat 2 10%float;
                        Cart.mkItem 2%nat 1 5%float] 3 25%float) 1%nat 0)
    as [_ Hdel].
  destruct (Hset _ eq_refl) as (_ & _ & Hpos & _).
  destruct (Hdel _ eq_refl) as (_ & _ & _ & Hzero).
  split.
  - apply Hpos. lia.
  - apply Hzero; [lia|]. simpl.
    apply NoDup_cons. split; [|apply NoDup_singleton].
    by intros [=]%list_elem_of_singleton.
Defined.

End CartLines.

(** ** controllers/cartController.js: adding to the cart *)

Section AddingToTheCart.
Import CartController Examples.

Lemma trySaveCart_Ok db userId c db' c' :
  trySaveCart db userId c = (db', Ok c') →
  Cart.validate c = None ∧ db' = saveCart db userId c ∧ c' = Cart.preSave c.
Proof.
  unfold trySaveCart. destruct (Cart.validate c); [done|].
  by intros [= <- <-].
Qed.

Lemma trySaveCart_Err db userId c db' e :
  trySaveCart db userId c = (db', Err e) →
  db' = db ∧ type e = "ValidationError".
Proof.
  unfold trySaveCart. destruct (Cart.validate c); [|done].
  by intros [= <- <-].
Qed.


Lemma storedItems_saveCart db userId c u :
  storedItems (saveCart db userId c) u
  = if decide (userId = u) then Cart.items c else storedItems db u.
Proof.
  unfold storedItems, saveCart. simpl. rewrite lookup_insert.
  by case_decide.
Qed.

(** The cart [findOrCreateByUser] hands over holds the stored items, and
    creating it changes the stored items of nobody. *)
Lemma findOrCreateByUser_spec db userId :
  let r := findOrCreateByUser db userId in
  Cart.items r.2 = storedItems db userId
  ∧ products r.1 = products db ∧ orders r.1 = orders db
  ∧ (∀ u, storedItems r.1 u = storedItems db u)
  ∧ (∀ u, u ≠ userId → carts r.1 !! u = carts db !! u).
Proof.
  unfold findOrCreateByUser, storedItems.
  destruct (carts db !! userId) as [c|] eqn:Hc; simpl; [done|].
  repeat split; try done.
  - intros u. rewrite lookup_insert. case_decide; [by subst; rewrite Hc|done].
  - intros u Hu. by apply lookup_insert_ne.
Qed.

Lemma lines_distinct_addItem c productId productData q :
  NoDup (Cart.product <$> Cart.items c) →
  NoDup (Cart.product <$> Cart.items (Cart.addItem c productId productData q)).
Proof.
  intros Hnd.
  destruct (addItem_items c productId productData q)
    as [(i & item & Hx & _ & _ & Hp & ->)|(_ & Hi & ->)].
  - rewrite list_fmap_insert. simpl.
    rewrite list_insert_id; [done|].
    by rewrite list_lookup_fmap, Hx, <- Hp.
  - rewrite fmap_app. apply NoDup_app. split; [done|]. split.
    + intros k Hk [=]%list_elem_of_singleton. subst k.
      apply list_elem_of_fmap in Hk as (x & Hx & Hin).
      pose proof (findIndex_None _ _ Hi x Hin) as Hf.
      by apply isFor_false in Hf.
    + apply NoDup_singleton.
Qed.

(** What a successful [addToCart] went through. *)
Lemma addToCart_Sent userId productId q db db' c :
  addToCart userId (Some productId) q db = (db', Sent c) →
  ∃ p cart,
    products db !! productId = Some p ∧ Product.isActive p = true
    ∧ 0 < q
    ∧ Cart.items cart = storedItems db userId
    ∧ match Cart.getItem cart productId with
      | Some item => Cart.quantity item
      | None => 0
      end + q ≤ Product.stock p
    ∧ Cart.validate (Cart.addItem cart productId p q) = None
    ∧ c = Cart.preSave (Cart.addItem cart productId p q)
    ∧ carts db' !! userId = Some c
    ∧ products db' = products db ∧ orders db' = orders db
    ∧ (∀ u, u ≠ userId → carts db' !! u = carts db !! u).
Proof.
  unfold addToCart, findActive.
  destruct (Z.leb_spec q 0) as [|Hq]; [done|].
  destruct (products db !! productId) as [p|] eqn:Hp; simpl; [|done].
  destruct (Product.isActive p) eqn:Ha; [|done].
  destruct (Product.stock p <? q); [done|].
  pose proof (findOrCreateByUser_spec db userId) as Hfc.
  destruct (findOrCreateByUser db userId) as [db1 cart]. simpl in Hfc.
  destruct Hfc as (Hitems & Hps & Hos & _ & Hcs).
  destruct (Z.ltb_spec (Product.stock p)
              (match Cart.getItem cart productId with
               | Some item => Cart.quantity item
               | None => 0
               end + q)) as [|Hstock]; [done|].
  destruct (trySaveCart db1 userId _) as [db2 [saved|e]] eqn:Hsave;
    simpl; [|done].
  intros [= <- <-].
  apply trySaveCart_Ok in Hsave as (Hval & -> & ->).
  exists p, cart. repeat split; try done.
  - simpl. apply lookup_insert_eq.
  - intros u Hu. simpl. rewrite lookup_insert_ne by done. by apply Hcs.
Qed.



(** X8. A refused [addToCart] leaves the products, the orders and the
    items of every cart as they were; it is refused with a StockError only
    when the product is there and active and its stock is below the
    quantity asked, or below the quantity the cart holds plus the quantity
    asked. *)
Theorem addToCart_refused userId productId q db db' f :
  addToCart userId productId q db = (db', Refused f) →
  products db' = products db ∧ orders db' = orders db
  ∧ (∀ u, storedItems db' u = storedItems db u)
  ∧ (kind f = "StockError" →
     ∃ pid p, productId = Some pid ∧ findActive db pid = Some p
       ∧ (Product.stock p < q
          ∨ Product.stock p
            < match List.find (Cart.isFor pid) (storedItems db userId) with
              | Some old => Cart.quantity old
              | None => 0
              end + q)).
Proof.
  unfold addToCart.
  destruct productId as [pid|]; [|by intros [= <- <-]].
  destruct (Z.leb_spec q 0) as [|Hq]; [by intros [= <- <-]|].
  destruct (findActive db pid) as [p|] eqn:Hp; [|by intros [= <- <-]].
  destruct (Z.ltb_spec (Product.stock p) q) as [Hlow|_].
  { intros [= <- <-]. repeat split; try done. intros _.
    exists pid, p. split; [done|]. split; [done|]. by left. }
  pose proof (findOrCreateByUser_spec db userId) as Hfc.
  destruct (findOrCreateByUser db userId) as [db1 cart]. simpl in Hfc.
  destruct Hfc as (Hitems & Hps & Hos & Hst & _).
  destruct (Z.ltb_spec (Product.stock p)
              (match Cart.getItem cart pid with
               | Some item => Cart.quantity item
               | None => 0
               end + q)) as [Hlow|_].
  { intros [= <- <-]. repeat split; try done. intros _.
    exists pid, p. split; [done|]. split; [done|]. right.
    unfold Cart.getItem in Hlow. by rewrite Hitems in Hlow. }
  destruct (trySaveCart db1 userId _) as [db2 [saved|e]] eqn:Hsave;
    simpl; [done|].
  intros [= <- <-]. apply trySaveCart_Err in Hsave as [-> He].
  repeat split; try done. simpl. rewrite He. discriminate.
Qed.

(** Alice, who has two of A in her cart, asks for nine more of a stock of
    10. *)
Lemma addToCart_refused_example :
  addToCart alice (Some productA) 9 shop
  = (shop, Refused (mkFailure (CannotAdd 9 8) 400 "StockError"))
  ∧ ∀ u, storedItems (addToCart alice (Some productA) 9 shop).1 u
         = storedItems shop u.
Proof.
  split; [reflexivity|].
  exact (proj1 (proj2 (proj2 (addToCart_refused alice (Some productA) 9 shop
                                _ _ eq_refl)))).
Defined.

End AddingToTheCart.

(** ** controllers/cartController.js: clearing and validating the cart *)

Section ClearingAndValidating.
Import CartController Examples.

(** X9. [clearCart] on a user without a cart is refused as not found and
    changes nothing. Otherwise the stored cart becomes empty with zero
    totals, products, orders and other carts stay, and a product added
    afterwards starts a fresh cart: one line, of the quantity added, at the
    product's price. *)
Theorem clearCart_starts_fresh userId db :
  (carts db !! userId = None →
     clearCart userId db
     = (db, Refused (failureOf (createNotFoundError "Cart"))))
  ∧ (∀ cart, carts db !! userId = Some cart →
       ∃ db1,
         clearCart userId db = (db1, Sent (Cart.mk [] 0 0%float))
         ∧ carts db1 !! userId = Some (Cart.mk [] 0 0%float)
         ∧ products db1 = products db ∧ orders db1 = orders db
         ∧ (∀ u, u ≠ userId → carts db1 !! u = carts db !! u)
         ∧ ∀ productId q db2 c,
             addToCart userId (Some productId) q db1 = (db2, Sent c) →
             ∃ p, products db !! productId = Some p
               ∧ Cart.items c = [Cart.mkItem productId q (Product.price p)]
               ∧ Cart.totalItems c = q).
Proof.
  unfold clearCart, findByUser. split.
  - by intros ->.
  - intros cart ->. simpl. eexists. split; [reflexivity|]. simpl.
    split; [apply lookup_insert_eq|]. split; [done|]. split; [done|].
    split; [intros u Hu; by apply lookup_insert_ne|].
    intros productId q db2 c Hadd.
    apply addToCart_Sent in Hadd
      as (p & cart' & Hp & _ & _ & Hitems & _ & _ & -> & _).
    exists p. split; [done|].
    rewrite storedItems_saveCart in Hitems.
    rewrite decide_True in Hitems by done. simpl in Hitems.
    unfold Cart.addItem. rewrite Hitems. simpl. split; [done|].
    unfold Cart.sumQuantity. simpl. lia.
Qed.

(** Alice clears her cart of three items and adds one B. *)
Lemma clearCart_starts_fresh_example :
  ∃ db1 db2 c,
    clearCart alice shop = (db1, Sent (Cart.mk [] 0 0%float))
    ∧ addToCart alice (Some productB) 1 db1 = (db2, Sent c)
    ∧ Cart.items c = [Cart.mkItem productB 1 5%float]
    ∧ Cart.totalItems c = 1.
Proof.
  destruct (clearCart_starts_fresh alice shop) as [_ H].
  destruct (H _ eq_refl) as (db1 & Hclear & _ & _ & _ & _ & Hfresh).
  injection Hclear as <-.
  eexists _, _, _. split; [reflexivity|]. split; [reflexivity|].
  destruct (Hfresh productB 1 _ _ eq_refl) as (p & Hp & Hitems & Hti).
  injection Hp as <-. by split.
Defined.

Lemma keptFrom_cons x l kept : keptFrom l kept → keptFrom (x :: l) kept.
Proof.
  intros (item & p & Hin & H). exists item, p. split; [|done].
  by apply elem_of_cons; right.
Qed.

Lemma checkItems_spec l : ∀ issues valid,
  ∃ newIssues kept,
    checkItems l issues valid = ((issues ++ newIssues)%list,
                                 (valid ++ kept)%list)
    ∧ Forall (keptFrom l) kept
    ∧ sublist (Cart.product <$> kept) (Cart.product <$> (fst <$> l))
    ∧ (newIssues = [] → kept = fst <$> l).
Proof.
  induction l as [|[item [p|]] l IH]; intros issues valid; simpl.
  - exists [], []. by rewrite !app_nil_r.
  - destruct (Product.isActive p) eqn:Ha; simpl.
    + destruct (Z.eqb_spec (Product.stock p) 0) as [Hz|Hz].
      * destruct (IH (issues ++ [mkIssue (Some (Cart.product item))
                                   (Some (Product.name p)) OutOfStock])%list
                     valid) as (ni & kept & -> & Hk & Hs & _).
        eexists (_ :: ni), kept. rewrite <- app_assoc.
        split; [done|]. split.
        { eapply Forall_impl; [exact Hk|]. intros. by apply keptFrom_cons. }
        split; [by apply sublist_cons|done].
      * destruct (Z.ltb_spec (Product.stock p) (Cart.quantity item)) as [Hl|Hl].
        -- destruct (IH (issues ++ [mkIssue (Some (Cart.product item))
                                      (Some (Product.name p))
                                      (OnlyAvailable (Product.stock p)
                                                     (Cart.quantity item))])%list
                        (valid ++ [Cart.mkItem (Cart.product item)
                                     (Product.stock p) (Cart.price item)])%list)
             as (ni & kept & -> & Hk & Hs & _).
           eexists (_ :: ni), (_ :: kept). rewrite <- !app_assoc.
           split; [done|]. split.
           { apply Forall_cons. split.
             - exists item, p. simpl. split; [apply elem_of_cons; by left|].
               repeat split; try done; lia.
             - eapply Forall_impl; [exact Hk|]. intros.
               by apply keptFrom_cons. }
           split; [by apply sublist_skip|done].
        -- destruct (IH issues (valid ++ [item])%list)
             as (ni & kept & -> & Hk & Hs & Hnone).
           exists ni, (item :: kept). rewrite <- !app_assoc.
           split; [done|]. split.
           { apply Forall_cons. split.
             - exists item, p. split; [apply elem_of_cons; by left|].
               repeat split; try done; lia.
             - eapply Forall_impl; [exact Hk|]. intros.
               by apply keptFrom_cons. }
           split; [by apply sublist_skip|].
           intros Hni. by rewrite (Hnone Hni).
    + destruct (IH (issues ++ [mkIssue (Some (Cart.product item))
                                 (Some (Product.name p))
                                 NoLongerAvailableIssue])%list valid)
        as (ni & kept & -> & Hk & Hs & _).
      eexists (_ :: ni), kept. rewrite <- app_assoc.
      split; [done|]. split.
      { eapply Forall_impl; [exact Hk|]. intros. by apply keptFrom_cons. }
      split; [by apply sublist_cons|done].
  - destruct (IH (issues ++ [mkIssue None None ProductNotFound])%list valid)
      as (ni & kept & -> & Hk & Hs & _).
    eexists (_ :: ni), kept. rewrite <- app_assoc.
    split; [done|]. split.
    { eapply Forall_impl; [exact Hk|]. intros. by apply keptFrom_cons. }
    split; [by apply sublist_cons|done].
Qed.

Lemma keptFrom_lineOk db items kept :
  keptFrom (populate db <$> items) kept → lineOk (populate db kept) = true.
Proof.
  intros (item & p & Hin & Hprod & _ & _ & Hstock & Ha).
  apply list_elem_of_fmap in Hin as (x & [= -> Hp] & _).
  unfold lineOk, populate. simpl. rewrite Hprod, <- Hp, Ha. simpl.
  by apply Z.leb_le.
Qed.

Lemma populate_same_products db db' :
  products db' = products db → populate db' = populate db.
Proof.
  intros H. unfold populate. by rewrite H.
Qed.

Lemma fst_populate db (l : list Cart.Item) : fst <$> (populate db <$> l) = l.
Proof. induction l as [|x l IH]; simpl; [done|]. f_equal. exact IH. Qed.

Lemma kept_lines_pass db items kept :
  Forall (keptFrom (populate db <$> items)) kept →
  forallb lineOk (populate db <$> kept) = true.
Proof.
  intros H. induction H as [|x kept Hx _ IH]; simpl; [done|].
  change (lineOk (populate db x) && forallb lineOk (populate db <$> kept)
          = true).
  by rewrite (keptFrom_lineOk _ _ _ Hx), IH.
Qed.

(** X10. After a [validateCart] that answers, every line of the stored
    cart passes the checks of order placement: its product is there and
    active and its stock covers the quantity. Every line comes from a line
    the cart had, with the same product and price and a quantity that is
    not larger; lines for distinct products stay so. Products, orders and
    other carts are untouched; when the answer is valid nothing at all is
    changed, and otherwise the answer carries the stored cart, whose totals
    are those of its lines. *)
Theorem validateCart_then_lines_pass userId db db' r :
  validateCart userId db = (db', Sent r) →
  products db' = products db ∧ orders db' = orders db
  ∧ (∀ u, u ≠ userId → carts db' !! u = carts db !! u)
  ∧ Forall (keptFrom (populate db <$> storedItems db userId))
           (storedItems db' userId)
  ∧ isOk (OrderController.validateItems
            (populate db' <$> storedItems db' userId) [] 0%float) = true
  ∧ (NoDup (Cart.product <$> storedItems db userId) →
     NoDup (Cart.product <$> storedItems db' userId))
  ∧ (isValid r = true → db' = db ∧ issues r = [])
  ∧ (isValid r = false →
     issues r ≠ []
     ∧ ∃ c, updatedCart r = Some c ∧ carts db' !! userId = Some c
         ∧ Cart.totalItems c = Cart.sumQuantity (Cart.items c)
         ∧ Cart.totalAmount c = Cart.sumAmount (Cart.items c)).
Proof.
  assert (Hpass : ∀ db' kept,
            products db' = products db →
            Forall (keptFrom (populate db <$> storedItems db userId)) kept →
            isOk (OrderController.validateItems (populate db' <$> kept) []
                    0%float) = true).
  { intros db1 kept Hps Hk. rewrite (populate_same_products _ _ Hps).
    by rewrite validateItems_complete by by eapply kept_lines_pass. }
  unfold validateCart, findByUser.
  destruct (carts db !! userId) as [cart|] eqn:Hc; simpl.
  - assert (Hst : storedItems db userId = Cart.items cart).
    { unfold storedItems. by rewrite Hc. }
    destruct (Cart.isEmpty cart) eqn:He.
    + intros [= <- <-]. rewrite Hst. unfold Cart.isEmpty in He.
      destruct (Cart.items cart); [|done]. by repeat split.
    + destruct (checkItems_spec (populate db <$> Cart.items cart) [] [])
        as (ni & kept & -> & Hk & Hsub & Hnone).
      simpl. rewrite fst_populate in Hsub, Hnone.
      destruct ni as [|i ni]; simpl.
      * intros [= <- <-]. rewrite Hst. pose proof (Hnone eq_refl) as ->.
        repeat split; try done. apply Hpass; [done|]. by rewrite Hst.
      * destruct (trySaveCart db userId _) as [db1 [saved|e]] eqn:Hsave;
          [|done].
        intros [= <- <-]. apply trySaveCart_Ok in Hsave as (_ & -> & ->).
        rewrite storedItems_saveCart, decide_True by done. simpl.
        rewrite Hst. repeat split; try done.
        -- intros u Hu. by apply lookup_insert_ne.
        -- apply Hpass; [done|]. by rewrite Hst.
        -- intros Hnd. by eapply sublist_NoDup.
        -- eexists. split; [reflexivity|]. split; [|done].
           apply lookup_insert_eq.
  - intros [= <- <-]. unfold storedItems. rewrite Hc. by repeat split.
Qed.

(** A cart asking for 5 of a stock of 3 is cut to 3. *)
Lemma validateCart_then_lines_pass_example :
  ∃ db' r,
    validateCart alice scarce = (db', Sent r)
    ∧ isValid r = false
    ∧ storedItems db' alice = [Cart.mkItem productA 3 10%float]
    ∧ isOk (OrderController.validateItems
              (populate db' <$> storedItems db' alice) [] 0%float) = true.
Proof.
  eexists _, _. split; [reflexivity|]. split; [reflexivity|].
  split; [reflexivity|].
  exact (proj1 (proj2 (proj2 (proj2 (proj2
           (validateCart_then_lines_pass alice scarce _ _ eq_refl)))))).
Defined.

End ClearingAndValidating.

(** ** controllers/productController.js: stock updates and soft deletion *)

Section Catalog.
Import ProductController OrderController CartController Examples.

Lemma saveProduct_Ok db productId p db' p' :
  saveProduct db productId p = (db', Ok p') →
  p' = p ∧ 0 ≤ Product.stock p
  ∧ db' = setProducts db (<[productId := p]> (products db)).
Proof.
  unfold saveProduct, validateProduct.
  destruct (0 <=? Product.price p)%float; simpl; [|done].
  destruct (Z.leb_spec 0 (Product.stock p)); simpl; [|done].
  by intros [= <- <-].
Qed.

Lemma saveProduct_Err db productId p db' e :
  saveProduct db productId p = (db', Err e) → db' = db.
Proof.
  unfold saveProduct. destruct (validateProduct p); [|done].
  by intros [= <- _].
Qed.

(** X11. [updateProductStock] changes one product and nothing else. When
    it answers, the stored stock is the one sent back and it is not below
    zero, whatever it was before, and name, price and active flag are
    kept; when it refuses, the database is unchanged. A "subtract" on a
    product with a valid price always answers, with the difference, or 0
    when the difference is negative. *)
Theorem updateProductStock_never_negative productId stock operation db :
  carts (updateProductStock productId stock operation db).1 = carts db
  ∧ orders (updateProductStock productId stock operation db).1 = orders db
  ∧ (∀ k, k ≠ productId →
       products (updateProductStock productId stock operation db).1 !! k
       = products db !! k)
  ∧ (∀ f, (updateProductStock productId stock operation db).2 = Refused f →
       (updateProductStock productId stock operation db).1 = db)
  ∧ (∀ p', (updateProductStock productId stock operation db).2 = Sent p' →
       products (updateProductStock productId stock operation db).1
         !! productId = Some p'
       ∧ 0 ≤ Product.stock p'
       ∧ ∃ p, products db !! productId = Some p
           ∧ Product.name p' = Product.name p
           ∧ Product.price p' = Product.price p
           ∧ Product.isActive p' = Product.isActive p)
  ∧ (∀ p n, stock = Some n → operation = Some "subtract" →
       products db !! productId = Some p →
       (0 <=? Product.price p)%float = true →
       (updateProductStock productId stock operation db).2
       = Sent (Product.setStock p (Z.max 0 (Product.stock p - n)))).
Proof.
  unfold updateProductStock.
  destruct stock as [n|]; [|by repeat split].
  destruct (products db !! productId) as [p|] eqn:Hp; [|by repeat split].
  split; [|split; [|split; [|split; [|split]]]].
  6: {
    intros p0 n0 [= <-] -> [= <-] Hprice. simpl.
    unfold saveProduct, validateProduct. simpl. rewrite Hprice. simpl.
    destruct (Z.ltb_spec (Product.stock p - n) 0); simpl.
    - by rewrite Z.max_l by lia.
    - destruct (Z.leb_spec 0 (Product.stock p - n)); [|lia]. simpl.
      by rewrite Z.max_r by lia. }
  all: destruct (if String.eqb (default "set" operation) "set" then _ else _)
         as [product'|] eqn:Hop; [|by simpl; try done].
  all: assert (Hsame : Product.name product' = Product.name p
                       ∧ Product.price product' = Product.price p
                       ∧ Product.isActive product' = Product.isActive p).
  all: try (destruct (String.eqb (default "set" operation) "set");
            [|destruct (String.eqb (default "set" operation) "add");
              [|destruct (String.eqb (default "set" operation) "subtract");
                [|done]]];
            injection Hop as <-; done).
  all: destruct (saveProduct db productId product') as [db1 [saved|e]] eqn:Hs;
         simpl.
  all: try (apply saveProduct_Ok in Hs as (-> & Hnn & ->)).
  all: try (apply saveProduct_Err in Hs as ->).
  all: simpl; try done.
  - intros k Hk. by apply lookup_insert_ne.
  - intros p' [= <-]. split; [apply lookup_insert_eq|]. split; [done|].
    by exists p.
Qed.

(** An admin subtracts 5 from a stock of 3, then adds -1 to the 0 left. *)
Lemma updateProductStock_never_negative_example :
  Product.stock
    <$> products (updateProductStock productA (Some 5) (Some "subtract")
                    scarce).1 !! productA
  = Some 0
  ∧ isSent (updateProductStock productA (Some (-4)) (Some "add") scarce).2
    = false.
Proof.
  destruct (updateProductStock_never_negative productA (Some 5)
              (Some "subtract") scarce) as (_ & _ & _ & _ & Hsent & Hsub).
  pose proof (Hsub _ 5 eq_refl eq_refl eq_refl eq_refl) as H.
  destruct (Hsent _ H) as (Hstored & _). rewrite Hstored.
  split; reflexivity.
Defined.

End Catalog.

(** ** controllers/orderController.js: what a placement asks to sell *)

Section WhatIsSold.
Import ProductController OrderController CartController Examples.

Lemma snapshot_item db (l : list Cart.Item) item :
  forallb lineOk (populate db <$> l) = true →
  item ∈ snapshot (populate db <$> l) →
  ∃ line p, line ∈ l
    ∧ products db !! Cart.product line = Some p
    ∧ Product.isActive p = true
    ∧ Cart.quantity line ≤ Product.stock p
    ∧ item = Order.mkItem (Cart.product line) (Product.name p)
               (Product.price p) (Cart.quantity line)
               (Product.price p * num (Cart.quantity line))%float.
Proof.
  induction l as [|x l IH]; simpl; intros Hok Hin.
  - by apply elem_of_nil in Hin.
  - apply andb_prop in Hok as [Hx Hok]. unfold lineOk, populate in Hx.
    simpl in Hx.
    destruct (products db !! Cart.product x) as [p|] eqn:Hp; [|done].
    apply andb_prop in Hx as [Ha Hq]. apply Z.leb_le in Hq.
    simpl in Hin. apply elem_of_cons in Hin as [->|Hin].
    + exists x, p. repeat split; try done. apply elem_of_cons; by left.
    + destruct (IH Hok Hin) as (line & p' & Hl & H).
      exists line, p'. split; [|done]. apply elem_of_cons; by right.
Qed.

(** The items of the order data, one by one. *)
Lemma orderData_items userId body db data :
  orderDataFor userId body db = Ok data →
  ∀ item, item ∈ Order.items data →
    ∃ line p, line ∈ storedItems db userId
      ∧ products db !! Cart.product line = Some p
      ∧ Product.isActive p = true
      ∧ Cart.quantity line ≤ Product.stock p
      ∧ item = Order.mkItem (Cart.product line) (Product.name p)
                 (Product.price p) (Cart.quantity line)
                 (Product.price p * num (Cart.quantity line))%float.
Proof.
  intros H item Hin.
  apply orderDataFor_Ok in H as (address & cart & _ & Hc & _ & Hl & ->).
  simpl in Hin. unfold storedItems. rewrite Hc. by apply snapshot_item.
Qed.

(** X12. Every item of the order data that order placement hands to
    [Order.create] is a line of the buyer's cart, for a product that is
    there and active, with the quantity of the line, which the product's
    stock covers, and carries the product's name and price of that
    moment, not the price kept in the cart. *)
Theorem placeOrder_sells_what_is_there userId body db data :
  orderDataFor userId body db = Ok data →
  ∀ item, item ∈ Order.items data →
    ∃ line p, line ∈ storedItems db userId
      ∧ Order.product item = Cart.product line
      ∧ Order.quantity item = Cart.quantity line
      ∧ products db !! Order.product item = Some p
      ∧ Product.isActive p = true
      ∧ Order.quantity item ≤ Product.stock p
      ∧ Order.name item = Product.name p
      ∧ Order.price item = Product.price p.
Proof.
  intros H item Hin.
  destruct (orderData_items _ _ _ _ H item Hin)
    as (line & p & Hl & Hp & Ha & Hq & ->).
  exists line, p. simpl in *. by repeat split.
Qed.

(** Alice's cart kept A at $10; the product now costs $12, and that is
    what the order data say. *)
Lemma placeOrder_sells_what_is_there_example :
  ∃ data item p,
    orderDataFor alice body repriced = Ok data
    ∧ Order.items data !! 0%nat = Some item
    ∧ Order.price item = Product.price p
    ∧ p = atTwelve.
Proof.
  eexists _, _, _. split; [reflexivity|]. split; [reflexivity|].
  destruct (placeOrder_sells_what_is_there alice body repriced _ eq_refl
              (Order.mkItem productA "A" 12%float 2 24%float))
    as (line & p & _ & _ & _ & Hp & _ & _ & _ & Hprice).
  { apply list_elem_of_lookup. by exists 0%nat. }
  injection Hp as <-. split; [exact Hprice|reflexivity].
Defined.

(** X13. When [deleteProduct] answers, the product is still stored, with
    its name, price and stock, and is inactive, and nothing else has
    changed. On every database in which the product is stored and
    inactive, the one [deleteProduct] leaves included, [getProductById]
    answers not found for it, [addToCart] refuses it as not found and
    changes nothing, and no order data that order placement hands to
    [Order.create] hold an item of it. *)
Theorem deleteProduct_withdraws productId db db' :
  deleteProduct productId db = (db', Sent tt) →
  (∃ p, products db !! productId = Some p
     ∧ products db' !! productId
       = Some (Product.mk (Product.name p) (Product.price p)
                          (Product.stock p) false))
  ∧ (∀ k, k ≠ productId → products db' !! k = products db !! k)
  ∧ carts db' = carts db ∧ orders db' = orders db
  ∧ ∀ later p,
      products later !! productId = Some p → Product.isActive p = false →
      getProductById productId later
      = Refused (failureOf (createNotFoundError "Product"))
      ∧ (∀ userId q, 0 < q →
           addToCart userId (Some productId) q later
           = (later, Refused (failureOf (createNotFoundError "Product"))))
      ∧ (∀ userId body data,
           orderDataFor userId body later = Ok data →
           productId ∉ Order.product <$> Order.items data).
Proof.
  unfold deleteProduct.
  destruct (products db !! productId) as [p|] eqn:Hp; [|done].
  destruct (saveProduct db productId _) as [db1 [saved|e]] eqn:Hs; [|done].
  intros [= <-]. apply saveProduct_Ok in Hs as (_ & _ & ->). simpl.
  split; [exists p; split; [done|apply lookup_insert_eq]|].
  split; [intros k Hk; by apply lookup_insert_ne|].
  split; [done|]. split; [done|].
  intros later p' Hp' Hoff.
  assert (Hgone : findActive later productId = None).
  { unfold findActive. rewrite Hp'. simpl. by rewrite Hoff. }
  split; [unfold getProductById; by rewrite Hgone|].
  split.
  - intros userId q Hq. unfold addToCart. rewrite Hgone.
    destruct (Z.leb_spec q 0); [lia|done].
  - intros userId body data Hdata Hin.
    apply list_elem_of_fmap in Hin as (item & -> & Hin).
    destruct (orderData_items _ _ _ _ Hdata item Hin)
      as (line & p'' & _ & Hp'' & Ha & _ & ->).
    simpl in Hp'. rewrite Hp' in Hp''. injection Hp'' as ->.
    by rewrite Ha in Hoff.
Qed.

(** Product A is withdrawn from the shop, where Alice's cart holds it: it
    is no longer shown, Bob cannot add it, and Alice's request for an order
    stops at the check of her first line. *)
Lemma deleteProduct_withdraws_example :
  ∃ db', deleteProduct productA shop = (db', Sent tt)
    ∧ products db' !! productA = Some (Product.mk "A" 10%float 10 false)
    ∧ getProductById productA db'
      = Refused (failureOf (createNotFoundError "Product"))
    ∧ addToCart bob (Some productA) 1 db'
      = (db', Refused (failureOf (createNotFoundError "Product")))
    ∧ orderDataFor alice body db'
      = Err (mkAppError (NoLongerAvailable "A") 400 "ValidationError").
Proof.
  eexists. split; [reflexivity|].
  destruct (deleteProduct_withdraws productA shop _ eq_refl)
    as ((p & Hp & Hp') & _ & _ & _ & Hlater).
  injection Hp as <-.
  destruct (Hlater _ _ Hp' eq_refl) as (Hget & Hadd & _).
  split; [exact Hp'|]. split; [exact Hget|].
  split; [apply Hadd; lia|reflexivity].
Defined.

End WhatIsSold.

(** ** controllers/orderController.js: after a placement, after a
    cancellation *)

Section AfterwardsOrders.
Import OrderController Examples.

Lemma orderedQuantity_fixSubtotal k (l : list Order.Item) :
  orderedQuantity k (Order.fixSubtotal <$> l) = orderedQuantity k l.
Proof.
  induction l as [|x l IH]; [done|].
  change (orderedQuantity k (Order.fixSubtotal <$> x :: l)) with
    (if bool_decide (Order.product x = k)
     then Order.quantity x + orderedQuantity k (Order.fixSubtotal <$> l)
     else orderedQuantity k (Order.fixSubtotal <$> l)).
  by rewrite IH.
Qed.

Lemma setStock_same p : Product.setStock p (Product.stock p - 0) = p.
Proof. destruct p. unfold Product.setStock. simpl. f_equal. lia. Qed.




Lemma cancelOrder_Ok now rnd who orderId reason db db1 o' :
  cancelOrder now rnd who orderId reason db = (db1, Ok o') →
  ∃ o, orders db !! orderId = Some o
    ∧ role who = admin
    ∧ Order.canBeCancelled o = true
    ∧ o' = Order.preSave false now rnd
             (Order.setStatus o Order.cancelled (Order.paymentStatus o)
                (Order.deliveredAt o) (Some now) reason)
    ∧ db1 = mkDB (restoreStocks (Order.items o) (products db)) (carts db)
                 (<[orderId := o']> (orders db)).
Proof.
  unfold cancelOrder. intros H.
  destruct (orders db !! orderId) as [o|] eqn:Ho; [|done].
  exists o. split; [done|].
  destruct (role who); simpl in H; [done|].
  destruct (Order.canBeCancelled o); simpl in H; [|done].
  by injection H as <- <-.
Qed.



(** X16. The status update can reopen a cancelled order, and a cancellation
    after that succeeds again: it adds the ordered quantities to the stock
    a second time. *)
Theorem reopened_order_restores_again
    now rnd who orderId reason db db1 o1 status now2 rnd2 reason2
    now3 rnd3 reason3 :
  cancelOrder now rnd who orderId reason db = (db1, Ok o1) →
  status = "pending" ∨ status = "confirmed" →
  ∃ db2 o2 db3 o3,
    updateOrderStatus now2 rnd2 orderId status reason2 db1 = (db2, Ok o2)
    ∧ cancelOrder now3 rnd3 who orderId reason3 db2 = (db3, Ok o3)
    ∧ ∀ k, stockOf db3 k
           = (λ s, s + 2 * orderedQuantity k (Order.items o1))
             <$> stockOf db k.
Proof.
  intros H Hstatus.
  apply cancelOrder_Ok in H as (o & Ho & Hmay & Hcan & -> & ->).
  assert (Hlt : (orderId < length (orders db))%nat) by by eapply lookup_lt_Some.
  unfold updateOrderStatus, cancelOrder in *. simpl.
  rewrite list_lookup_insert_eq by done. rewrite Hmay.
  destruct Hstatus as [-> | ->]; simpl;
    eexists _, _, _, _; (split; [reflexivity|]); unfold saveOrder; simpl;
    (rewrite list_lookup_insert_eq by by rewrite length_insert); simpl;
    (split; [reflexivity|]);
    intros k; unfold stockOf; simpl;
    rewrite !restoreStocks_fixSubtotal, !restoreStocks_lookup,
            !orderedQuantity_fixSubtotal;
    (destruct (products db !! k) as [p|]; simpl; [|done]);
    f_equal; lia.
Qed.

(** An admin cancels the order for two of A that the database holds, sets
    it back to pending and cancels it again: A, of which 8 were left, now
    has 12. *)
Lemma reopened_order_restores_again_example :
  ∃ db1 o1 db2 o2 db3 o3,
    cancelOrder now rnd theAdmin 0%nat None placed = (db1, Ok o1)
    ∧ updateOrderStatus now rnd 0%nat "pending" None db1 = (db2, Ok o2)
    ∧ cancelOrder now rnd theAdmin 0%nat None db2 = (db3, Ok o3)
    ∧ stockOf placed productA = Some 8
    ∧ stockOf db3 productA = Some 12.
Proof.
  eexists _, _. 
  destruct (reopened_order_restores_again now rnd theAdmin 0%nat None
              placed _ _ "pending" now rnd None now rnd None eq_refl
              (or_introl eq_refl))
    as (db2 & o2 & db3 & o3 & Hu & Hc & Hstock).
  exists db2, o2, db3, o3.
  split; [reflexivity|]. split; [exact Hu|]. split; [exact Hc|].
  split; [reflexivity|].
  refine (eq_trans (Hstock productA) _). vm_compute. reflexivity.
Defined.

End AfterwardsOrders.

(** ** controllers/orderController.js: reading orders *)

Section ReadingOrders.
Import OrderController Examples.

Lemma found_snoc userId status (l : list Order.t) o :
  reverse (List.filter (matchesQuery userId status)
             (imap (λ i o, (i, o)) (l ++ [o])))
  = ((if matchesQuery userId status (length l, o)
      then [(length l, o)] else [])
     ++ reverse (List.filter (matchesQuery userId status)
                   (imap (λ i o, (i, o)) l)))%list.
Proof.
  rewrite imap_app, List.filter_app, reverse_app. simpl.
  rewrite Nat.add_0_r.
  by destruct (matchesQuery userId status (length l, o)).
Qed.

Lemma found_elem userId status (l : list Order.t) i o :
  (i, o) ∈ reverse (List.filter (matchesQuery userId status)
                      (imap (λ i o, (i, o)) l))
  ↔ l !! i = Some o ∧ matchesQuery userId status (i, o) = true.
Proof.
  rewrite elem_of_reverse, list_elem_of_In, List.filter_In,
          <- list_elem_of_In, elem_of_lookup_imap.
  split.
  - intros [(j & y & [= -> ->] & Hl) Hm]. done.
  - intros [Hl Hm]. split; [|done]. by exists i, o.
Qed.

(** The newest come first: the ids go down along the list. *)
Lemma found_descending userId status (l : list Order.t) :
  ∀ j1 j2 e1 e2,
    reverse (List.filter (matchesQuery userId status)
               (imap (λ i o, (i, o)) l)) !! j1 = Some e1 →
    reverse (List.filter (matchesQuery userId status)
               (imap (λ i o, (i, o)) l)) !! j2 = Some e2 →
    (j1 < j2)%nat → (e2.1 < e1.1)%nat.
Proof.
  induction l as [|o l IH] using rev_ind; intros j1 j2 e1 e2.
  - change (reverse _) with (@nil (nat * Order.t)). by rewrite lookup_nil.
  - rewrite found_snoc.
    destruct (matchesQuery userId status (length l, o)); simpl; [|apply IH].
    intros H1 H2 Hlt. destruct j2 as [|j2]; [lia|]. simpl in H2.
    destruct j1 as [|j1]; simpl in H1.
    + injection H1 as <-. simpl. destruct e2 as [i2 o2].
      apply list_elem_of_lookup_2, found_elem in H2 as [H2 _].
      by apply lookup_lt_Some in H2.
    + eapply IH; [done..|lia].
Qed.

Lemma skipLimit_lookup {A} (page limitNum : positive) (l : list A) j :
  skipLimit ((Zpos page - 1) * Zpos limitNum) (Zpos limitNum) l !! j
  = if (j <? Pos.to_nat limitNum)%nat
    then l !! ((Pos.to_nat page - 1) * Pos.to_nat limitNum + j)%nat
    else None.
Proof.
  unfold skipLimit.
  rewrite Z2Nat.inj_mul, Z2Nat.inj_sub, !Z2Nat.inj_pos by lia.
  change (Z.to_nat 1) with 1%nat.
  destruct (Nat.ltb_spec j (Pos.to_nat limitNum)).
  - by rewrite lookup_take_lt, lookup_drop.
  - apply lookup_ge_None. rewrite length_take. lia.
Qed.

Lemma ceilDiv_lt page limitNum total :
  0 < limitNum →
  page < ceilDiv total limitNum ↔ page * limitNum < total.
Proof.
  intros Hl. unfold ceilDiv. split.
  - intros H. destruct (Z.lt_ge_cases (page * limitNum) total); [done|].
    assert ((total + limitNum - 1) / limitNum < page + 1); [|lia].
    apply Z.div_lt_upper_bound; lia.
  - intros H.
    assert (page + 1 ≤ (total + limitNum - 1) / limitNum); [|lia].
    apply Z.div_le_lower_bound; lia.
Qed.

(** X17. A page of [getUserOrders] shows stored orders of the user, of the
    status when one is asked for, at most [limit] of them, the newest
    first and none twice. Every order of the user that matches is on some
    page, and [hasNextPage] is true exactly when the next page shows an
    order. *)
Theorem getUserOrders_pages userId status page limitNum db :
  let shown := (getUserOrders userId status page limitNum db).1 in
  let info := (getUserOrders userId status page limitNum db).2 in
  (∀ i o, (i, o) ∈ shown →
     orders db !! i = Some o
     ∧ Order.user o = userId
     ∧ (status ≠ "" →
        Order.statusOfString status = Some (Order.orderStatus o)))
  ∧ (length shown ≤ Pos.to_nat limitNum)%nat
  ∧ (∀ j1 j2 e1 e2, shown !! j1 = Some e1 → shown !! j2 = Some e2 →
       (j1 < j2)%nat → (e2.1 < e1.1)%nat)
  ∧ (∀ i o, orders db !! i = Some o → Order.user o = userId →
       status = "" ∨ Order.statusOfString status = Some (Order.orderStatus o) →
       ∃ page', (i, o) ∈ (getUserOrders userId status page' limitNum db).1)
  ∧ (hasNextPage info = true
     ↔ (getUserOrders userId status (page + 1) limitNum db).1 ≠ [])
  ∧ (hasPrevPage info = true ↔ page ≠ 1%positive).
Proof.
  unfold getUserOrders. simpl.
  set (found := reverse (List.filter (matchesQuery userId status)
                           (imap (λ i o, (i, o)) (orders db)))).
  split; [|split; [|split; [|split; [|split]]]].
  - intros i o Hin. apply subseteq_take, subseteq_drop in Hin.
    apply found_elem in Hin as [Ho Hm]. split; [done|].
    unfold matchesQuery in Hm. simpl in Hm.
    apply andb_prop in Hm as [Hu Hs]. apply bool_decide_eq_true_1 in Hu.
    split; [done|]. intros Hne. apply orb_prop in Hs as [Hs|Hs].
    + by apply String.eqb_eq in Hs.
    + by apply bool_decide_eq_true_1 in Hs.
  - unfold skipLimit. rewrite length_take. lia.
  - intros j1 j2 e1 e2. rewrite !skipLimit_lookup.
    destruct (j1 <? _)%nat; [|done]. destruct (j2 <? _)%nat; [|done].
    intros H1 H2 Hlt. eapply found_descending; [done..|lia].
  - intros i o Ho Hu Hs.
    assert (Hin : (i, o) ∈ found).
    { apply found_elem. split; [done|]. unfold matchesQuery. simpl.
      rewrite bool_decide_eq_true_2 by done. simpl.
      destruct Hs as [-> | Hs]; [done|].
      rewrite (bool_decide_eq_true_2 _ Hs). apply orb_true_r. }
    apply list_elem_of_lookup in Hin as [j Hj].
    pose proof (Pos2Nat.is_pos limitNum) as HL.
    exists (Pos.of_nat (S (j / Pos.to_nat limitNum))).
    apply list_elem_of_lookup. exists (j mod Pos.to_nat limitNum)%nat.
    rewrite skipLimit_lookup.
    destruct (Nat.ltb_spec (j mod Pos.to_nat limitNum) (Pos.to_nat limitNum))
      as [_|Hge].
    + rewrite Nat2Pos.id by done. rewrite <- Hj. f_equal.
      rewrite (Nat.div_mod_eq j (Pos.to_nat limitNum)) at 3. lia.
    + pose proof (Nat.mod_upper_bound j (Pos.to_nat limitNum)). lia.
  - unfold paginationOf. simpl. rewrite Z.ltb_lt, ceilDiv_lt by lia.
    replace ((Zpos (page + 1) - 1) * Zpos limitNum)
      with (Zpos page * Zpos limitNum) by lia.
    unfold skipLimit.
    pose proof (Pos2Nat.is_pos limitNum) as HL.
    split.
    + intros Hlt Hnil. apply (f_equal length) in Hnil.
      rewrite length_take, length_drop in Hnil. simpl in Hnil. lia.
    + intros Hne. destruct (Z.lt_ge_cases (Zpos page * Zpos limitNum)
                              (Z.of_nat (length found))); [done|].
      destruct Hne. rewrite drop_ge by lia. apply take_nil.
  - unfold paginationOf. simpl. rewrite Z.ltb_lt. lia.
Qed.

(** X18. The access test of [getOrderById] and [cancelOrder] lets only
    admins through. On every stored order, a requester with the role user
    is refused with the 403 AuthorizationError, also when the order is the
    requester's own, and the refused [cancelOrder] changes nothing; an
    admin is sent the order by [getOrderById]. *)
Theorem only_admins_pass_the_access_test who orderId o db :
  orders db !! orderId = Some o →
  match role who with
  | user =>
      getOrderById who orderId db
      = Refused (mkFailure AccessDeniedView 403 "AuthorizationError")
      ∧ ∀ now rnd reason,
          cancelOrder now rnd who orderId reason db
          = (db, Err (mkAppError AccessDeniedCancel 403
                                 "AuthorizationError"))
  | admin => getOrderById who orderId db = Sent o
  end.
Proof.
  intros Ho. unfold getOrderById, cancelOrder. rewrite Ho.
  by destruct (role who).
Qed.

(** Alice asks for her own order, and asks to cancel it. *)
Lemma only_admins_pass_the_access_test_example :
  orders placed !! 0%nat = Some aliceOrder
  ∧ Order.user aliceOrder = id aliceHerself
  ∧ getOrderById aliceHerself 0%nat placed
    = Refused (mkFailure AccessDeniedView 403 "AuthorizationError")
  ∧ cancelOrder now rnd aliceHerself 0%nat None placed
    = (placed, Err (mkAppError AccessDeniedCancel 403 "AuthorizationError"))
  ∧ getOrderById theAdmin 0%nat placed = Sent aliceOrder.
Proof.
  split; [reflexivity|]. split; [reflexivity|].
  destruct (only_admins_pass_the_access_test aliceHerself 0%nat aliceOrder
              placed eq_refl) as [Hget Hcancel].
  split; [exact Hget|]. split; [exact (Hcancel now rnd None)|].
  exact (only_admins_pass_the_access_test theAdmin 0%nat aliceOrder placed
           eq_refl).
Defined.

End ReadingOrders.


(** ** One request after the other *)

Section OneAfterTheOther.
Import CartController OrderController ProductController Examples.

Lemma NoDup_filter_lines (f : Cart.Item → bool) (l : list Cart.Item) :
  NoDup (Cart.product <$> l) → NoDup (Cart.product <$> List.filter f l).
Proof.
  induction l as [|x l IH]; [done|]. intros [Hx Hl]%NoDup_cons. simpl.
  destruct (f x); [|by apply IH]. simpl. apply NoDup_cons. split; [|by apply IH].
  intros Hin. apply Hx. apply list_elem_of_fmap in Hin as (y & -> & Hy).
  apply list_elem_of_fmap. exists y. split; [done|].
  apply list_elem_of_In. apply list_elem_of_In, List.filter_In in Hy. tauto.
Qed.



(** *** The stock *)












(** *** The lines of the carts *)

Lemma oneLine_same db db' :
  carts db' = carts db → oneLinePerProduct db → oneLinePerProduct db'.
Proof. unfold oneLinePerProduct. by intros ->. Qed.

Lemma oneLine_saveCart db userId c :
  oneLinePerProduct db → NoDup (Cart.product <$> Cart.items c) →
  oneLinePerProduct (saveCart db userId c).
Proof. intros H Hnd. simpl. by apply map_Forall_insert_2. Qed.

Lemma oneLine_trySaveCart db userId c :
  oneLinePerProduct db → NoDup (Cart.product <$> Cart.items c) →
  oneLinePerProduct (trySaveCart db userId c).1.
Proof.
  intros H Hnd. unfold trySaveCart.
  destruct (Cart.validate c); [done|]. by apply oneLine_saveCart.
Qed.

Lemma oneLine_saveProduct db productId p :
  carts (saveProduct db productId p).1 = carts db.
Proof. unfold saveProduct. by destruct (validateProduct p). Qed.

Lemma oneLine_serve db r :
  oneLinePerProduct db → oneLinePerProduct (serve db r).
Proof.
  intros Hw.
  destruct r as [userId|userId productId q|userId|userId
                |now rnd userId body|now rnd orderId status reason
                |now rnd who orderId reason|productId
                |productId stock operation]; simpl.
  - unfold getCart, findByUser.
    destruct (carts db !! userId) as [c|] eqn:Hc; simpl.
    + destruct (negb _); [|done]. simpl. apply oneLine_saveCart; [done|].
      simpl. rewrite filter_populate. apply NoDup_filter_lines.
      exact (Hw _ _ Hc).
    + apply oneLine_saveCart; [done|]. apply NoDup_nil_2.
  - unfold addToCart. destruct productId as [productId|]; [|done].
    destruct (q <=? 0); [done|].
    destruct (findActive db productId) as [p|]; [|done].
    destruct (Product.stock p <? q); [done|].
    assert (Hfound : oneLinePerProduct (findOrCreateByUser db userId).1
                     ∧ NoDup (Cart.product
                                <$> Cart.items
                                      (findOrCreateByUser db userId).2)).
    { unfold findOrCreateByUser.
      destruct (carts db !! userId) as [c|] eqn:Hc; simpl.
      - split; [done|]. exact (Hw _ _ Hc).
      - split; [|apply NoDup_nil_2]. apply oneLine_saveCart; [done|].
        apply NoDup_nil_2. }
    destruct (findOrCreateByUser db userId) as [db1 cart].
    destruct Hfound as [Hw1 Hnd]. simpl in Hw1, Hnd.
    destruct (Product.stock p <? _); [done|].
    pose proof (oneLine_trySaveCart db1 userId
                  (Cart.addItem cart productId p q) Hw1
                  (lines_distinct_addItem _ _ _ _ Hnd)) as Hsave.
    by destruct (trySaveCart db1 userId _).
  - unfold clearCart, findByUser.
    destruct (carts db !! userId) as [c|]; simpl; [|done].
    apply oneLine_saveCart; [done|]. apply NoDup_nil_2.
  - unfold validateCart, findByUser.
    destruct (carts db !! userId) as [c|] eqn:Hc; simpl; [|done].
    destruct (Cart.isEmpty c); [done|].
    destruct (checkItems_spec (populate db <$> Cart.items c) [] [])
      as (ni & kept & -> & _ & Hsub & _).
    simpl. rewrite fst_populate in Hsub.
    destruct ni as [|i ni]; simpl; [done|].
    pose proof (oneLine_trySaveCart db userId
                  (Cart.calculateTotals
                     (Cart.mk kept (Cart.totalItems c) (Cart.totalAmount c)))
                  Hw) as Hsave.
    destruct (trySaveCart db userId _) as [db1 [saved|e]]; apply Hsave;
      simpl; eapply sublist_NoDup; try done; exact (Hw _ _ Hc).
  - by rewrite placeOrder_refused.
  - unfold updateOrderStatus. destruct (String.eqb status ""); [done|].
    destruct (orders db !! orderId) as [o|]; [|done].
    by destruct (Order.updateStatus now rnd o status reason).
  - unfold cancelOrder. destruct (orders db !! orderId) as [o|]; [|done].
    destruct (negb (isAdminRole (role who)) && _); [done|].
    destruct (negb (Order.canBeCancelled o)); [done|].
    by destruct (Order.updateStatus now rnd o "cancelled" reason).
  - unfold deleteProduct.
    destruct (products db !! productId) as [p|]; [|done].
    match goal with
    | |- context [saveProduct db productId ?p'] =>
        pose proof (oneLine_saveProduct db productId p') as H;
        destruct (saveProduct db productId p') as [db1 [saved|e]]
    end; simpl in *; by eapply oneLine_same.
  - unfold updateProductStock.
    destruct stock as [n|]; [|done].
    destruct (products db !! productId) as [p|]; [|done].
    repeat match goal with
    | |- context [if String.eqb ?a ?b then _ else _] =>
        destruct (String.eqb a b)
    end;
    try done;
    match goal with
    | |- context [saveProduct db productId ?p'] =>
        pose proof (oneLine_saveProduct db productId p') as H;
        destruct (saveProduct db productId p') as [db1 [saved|e]]
    end; simpl in *; by eapply oneLine_same.
Qed.

(** X19. Whatever requests are served, one after the other and each from
    start to end, carts that have at most one line per product keep at
    most one line per product. *)
Theorem requests_keep_one_line_per_product (requests : list Request) db :
  oneLinePerProduct db →
  oneLinePerProduct (foldl serve db requests)
  ∧ ∀ userId, NoDup (Cart.product <$> storedItems (foldl serve db requests)
                                                    userId).
Proof.
  intros Hw.
  assert (H : oneLinePerProduct (foldl serve db requests)).
  { revert db Hw. induction requests as [|r requests IH]; intros db Hw;
      [done|].
    simpl. by apply IH, oneLine_serve. }
  split; [done|]. intros userId. unfold storedItems.
  destruct (carts _ !! userId) as [c|] eqn:Hc; [|apply NoDup_nil_2].
  exact (H _ _ Hc).
Qed.

(** The busy day: at its end Bob's cart is empty; before he cleared it, it
    held one line of A and one of B. *)
Lemma requests_keep_one_line_per_product_example :
  oneLinePerProduct placed
  ∧ oneLinePerProduct (foldl serve placed busyDay)
  ∧ Cart.product <$> storedItems (foldl serve placed (take 5 busyDay)) bob
    = [productA; productB].
Proof.
  assert (Hw : oneLinePerProduct placed).
  { apply (bool_decide_unpack _). vm_compute. exact I. }
  split; [exact Hw|].
  split; [exact (proj1 (requests_keep_one_line_per_product busyDay placed
                          Hw))|].
  vm_compute. reflexivity.
Defined.

End OneAfterTheOther.
